(** * Simple Notes API: a model of [notes_backend/src/api/main.py]

    The backend is a FastAPI application over one SQLite table.  This
    development embeds the request validation (the pydantic models
    [NoteCreate] and [NoteUpdate]), the SQL statements each handler
    sends, and the handlers themselves, and proves the properties the
    specification states about them.

    Python [str] values are sequences of Unicode code points; the
    storage engine is modelled by the table contents (a finite map from
    rowid to the four remaining columns) and the AUTOINCREMENT counter;
    the clock is an input of each request: what
    [datetime.now(timezone.utc)] reads when the handler asks. *)

From Stdlib Require Import ZArith NArith Ascii String.
From stdpp Require Import base decidable option list sorting gmap.

Local Open Scope Z_scope.

(** ** Python strings *)

(** A Python [str]: the sequence of its code points. *)
Definition str := list N.

(** An ASCII literal as a [str]. *)
Definition py (s : string) : str := map N_of_ascii (list_ascii_of_string s).

(** [str.isspace] on one character, as [str.strip()] without argument
    uses it: the ASCII table [_Py_ascii_whitespace] and, above 127,
    [_PyUnicode_IsWhitespace]. *)
Definition is_space (c : N) : bool :=
  ((9 <=? c) && (c <=? 13) ||
   (28 <=? c) && (c <=? 32) ||
   (c =? 133) || (c =? 160) || (c =? 5760) ||
   (8192 <=? c) && (c <=? 8202) ||
   (c =? 8232) || (c =? 8233) || (c =? 8239) || (c =? 8287) ||
   (c =? 12288))%N.

Fixpoint lstrip (s : str) : str :=
  match s with
  | [] => []
  | c :: s' => if is_space c then lstrip s' else s
  end.

Definition rstrip (s : str) : str := rev (lstrip (rev s)).

(** [v.strip()] *)
Definition strip (s : str) : str := rstrip (lstrip s).

(** Comparison of two TEXT values under SQLite's default BINARY
    collation: [memcmp] on the UTF-8 encodings, the shorter one first
    when it is a prefix.  UTF-8 keeps the order of code points, so this
    is the lexicographic order on code points. *)
Fixpoint str_compare (a b : str) : comparison :=
  match a, b with
  | [], [] => Eq
  | [], _ :: _ => Lt
  | _ :: _, [] => Gt
  | x :: a', y :: b' =>
      match N.compare x y with
      | Eq => str_compare a' b'
      | c => c
      end
  end.

Definition str_leb (a b : str) : bool :=
  match str_compare a b with Gt => false | _ => true end.

Definition str_le (a b : str) : Prop := str_leb a b = true.
Definition str_lt (a b : str) : Prop := str_compare a b = Lt.

(** ** The clock *)

(** What [datetime.now(timezone.utc)] returns: a date and a time of day
    in UTC. *)
Record datetime := Datetime {
  year : N;
  month : N;
  day : N;
  hour : N;
  minute : N;
  second : N;
  microsecond : N;
}.

(** The widths [isoformat] prints the fields with are enough for every
    [datetime] Python can build. *)
Definition datetime_ok (t : datetime) : Prop :=
  (year t < 10000 /\ month t < 100 /\ day t < 100 /\ hour t < 100 /\
   minute t < 100 /\ second t < 100 /\ microsecond t < 1000000)%N.

(** [n] in decimal on [w] digits, zero-padded. *)
Fixpoint zfill (w : nat) (n : N) : str :=
  match w with
  | O => []
  | S w' => (48 + n / 10 ^ N.of_nat w')%N :: zfill w' (n mod 10 ^ N.of_nat w')
  end.

(** [t.isoformat()] for an aware UTC [datetime]:
    [YYYY-MM-DDTHH:MM:SS+00:00], with [.ffffff] after the seconds when
    the microseconds are not zero. *)
Definition isoformat (t : datetime) : str :=
  zfill 4 (year t) ++ py "-" ++ zfill 2 (month t) ++ py "-" ++ zfill 2 (day t) ++
  py "T" ++ zfill 2 (hour t) ++ py ":" ++ zfill 2 (minute t) ++ py ":" ++
  zfill 2 (second t) ++
  (if (microsecond t =? 0)%N then [] else py "." ++ zfill 6 (microsecond t)) ++
  py "+00:00".

(** [_utc_now_iso()] when the clock reads [utc_now]. *)
Definition _utc_now_iso (utc_now : datetime) : str := isoformat utc_now.
Arguments _utc_now_iso : simpl never.

Definition lex (c1 c2 : comparison) : comparison :=
  match c1 with Eq => c2 | _ => c1 end.

(** Which of two instants comes first. *)
Definition datetime_compare (t1 t2 : datetime) : comparison :=
  lex (year t1 ?= year t2)%N
 (lex (month t1 ?= month t2)%N
 (lex (day t1 ?= day t2)%N
 (lex (hour t1 ?= hour t2)%N
 (lex (minute t1 ?= minute t2)%N
 (lex (second t1 ?= second t2)%N
      (microsecond t1 ?= microsecond t2)%N))))).

Definition datetime_le (t1 t2 : datetime) : Prop :=
  datetime_compare t1 t2 <> Gt.

(** ** The storage engine *)

(** A row of [notes] without its key: [title], [content], [created_at]
    and [updated_at], all [TEXT NOT NULL]. *)
Record stored := Stored {
  s_title : str;
  s_content : str;
  s_created_at : str;
  s_updated_at : str;
}.

(** The database file: the table, keyed by its [INTEGER PRIMARY KEY],
    and the [sqlite_sequence] entry that AUTOINCREMENT keeps for it (the
    largest rowid an insert has ever produced, 0 at first). *)
Record database := Database {
  notes : gmap Z stored;
  seq : Z;
}.

(** What a [SELECT id, title, content, created_at, updated_at] yields:
    one [sqlite3.Row]. *)
Record Row := MkRow {
  row_id : Z;
  row_title : str;
  row_content : str;
  row_created_at : str;
  row_updated_at : str;
}.

Definition to_row (kv : Z * stored) : Row :=
  MkRow kv.1 (s_title kv.2) (s_content kv.2)
        (s_created_at kv.2) (s_updated_at kv.2).

(** The SQL statements of the program, as the log records them. *)
Inductive stmt :=
  | CREATE_TABLE_IF_NOT_EXISTS
  | SELECT_ALL_ORDERED
  | INSERT (title content created_at updated_at : str)
  | SELECT_BY_ID (id : Z)
  | SELECT_1 (id : Z)
  | UPDATE (title content updated_at : str) (id : Z)
  | DELETE (id : Z)
  | COMMIT.

(** The largest rowid SQLite hands out. *)
Definition MAX_ROWID : Z := 9223372036854775807.

(** The smallest value an INTEGER column holds. *)
Definition MIN_ROWID : Z := -9223372036854775808.

(** The integers SQLite stores: the signed 64-bit range. *)
Definition in_range (id : Z) : bool :=
  (MIN_ROWID <=? id) && (id <=? MAX_ROWID).

(** The largest rowid that is or ever was in the table, as
    AUTOINCREMENT sees it: the counter and every key present. *)
Definition high_water (d : database) : Z :=
  map_fold (fun k _ m => Z.max k m) (seq d) (notes d).

(** [ORDER BY updated_at DESC, id DESC]: [r1] comes no later than
    [r2]. *)
Definition order_by (r1 r2 : Row) : bool :=
  match str_compare (row_updated_at r2) (row_updated_at r1) with
  | Lt => true
  | Gt => false
  | Eq => row_id r2 <=? row_id r1
  end.

Definition Order_by (r1 r2 : Row) : Prop := order_by r1 r2 = true.

Global Instance Order_by_dec r1 r2 : Decision (Order_by r1 r2).
Proof. unfold Order_by. apply _. Defined.

(** ** Errors *)

(** What a failed request is answered with: the 404 a handler raises,
    the 422 of a body its model refuses, and the 500 the framework
    answers when any other exception leaves the handler. *)
Inductive HTTPException :=
  | HTTP_404_NOT_FOUND
  | HTTP_422_UNPROCESSABLE_ENTITY
  | HTTP_500_INTERNAL_SERVER_ERROR.

(** The specification's names for the three error kinds. *)
Definition NotFoundError := HTTP_404_NOT_FOUND.
Definition ValidationError := HTTP_422_UNPROCESSABLE_ENTITY.
Definition InternalError := HTTP_500_INTERNAL_SERVER_ERROR.

Inductive result (A : Type) :=
  | Ok (a : A)
  | Raise (e : HTTPException).
Arguments Ok {A} a.
Arguments Raise {A} e.

(** ** Connections *)

(** An open [sqlite3] connection: the committed file, the view of the
    connection's own transaction, and the statements sent so far. *)
Record connection := Connection {
  committed : database;
  working : database;
  sent : list stmt;
}.

(** The world between two requests: the database file and the history
    of every statement ever sent to it. *)
Record world := World {
  db : database;
  log : list stmt;
}.

(** Code that changes a state [S] and returns or raises: a state
    monad with exceptions. *)
Definition SE (S A : Type) : Type := S -> S * result A.

Global Instance SE_ret S : MRet (SE S) := fun A a c => (c, Ok a).

Global Instance SE_bind S : MBind (SE S) := fun A B f m c =>
  match m c with
  | (c', Ok a) => f a c'
  | (c', Raise e) => (c', Raise e)
  end.

Global Instance SE_fmap S : FMap (SE S) := fun A B f m c =>
  match m c with
  | (c', Ok a) => (c', Ok (f a))
  | (c', Raise e) => (c', Raise e)
  end.

Definition raise {S A} (e : HTTPException) : SE S A := fun c => (c, Raise e).

(** Code that runs inside [with _db_conn() as conn]. *)
Abbreviation Conn := (SE connection).

(** A request handler. *)
Abbreviation App := (SE world).

(** Whether [sqlite3] can bind [id] as a parameter: a Python [int]
    outside the signed 64-bit range makes [conn.execute] raise
    [OverflowError] before anything is sent.  The keys of the table are
    rowids, hence in the range: the binding fails only for an id that
    has no row. *)
Definition bindable (d : database) (id : Z) : bool :=
  match notes d !! id with
  | Some _ => true
  | None => in_range id
  end.

(** The connection after it has sent statement [s]. *)
Definition logged (s : stmt) (c : connection) : connection :=
  Connection (committed c) (working c) (sent c ++ [s]).

(** [conn.execute("SELECT ... FROM notes ORDER BY updated_at DESC, id
    DESC").fetchall()] *)
Definition select_all : Conn (list Row) := fun c =>
  (logged SELECT_ALL_ORDERED c,
   Ok (merge_sort Order_by (to_row <$> map_to_list (notes (working c))))).

(** [conn.execute("SELECT id, ... FROM notes WHERE id = ?", (id,)).fetchone()] *)
Definition select_by_id (id : Z) : Conn (option Row) := fun c =>
  if bindable (working c) id then
    (logged (SELECT_BY_ID id) c,
     Ok ((fun s => to_row (id, s)) <$> notes (working c) !! id))
  else (c, Raise HTTP_500_INTERNAL_SERVER_ERROR).

(** [conn.execute("SELECT 1 FROM notes WHERE id = ?", (id,)).fetchone()] *)
Definition select_1 (id : Z) : Conn (option Z) := fun c =>
  if bindable (working c) id then
    (logged (SELECT_1 id) c, Ok ((fun _ => 1) <$> notes (working c) !! id))
  else (c, Raise HTTP_500_INTERNAL_SERVER_ERROR).

(** [conn.execute("INSERT INTO notes (title, content, created_at,
    updated_at) VALUES (?, ?, ?, ?)", ...)], returning [cur.lastrowid].
    The key is one more than the largest rowid the table ever held;
    when that is [MAX_ROWID] the engine reports SQLITE_FULL, which
    [sqlite3] raises and the framework turns into a 500. *)
Definition insert (title content created_at updated_at : str) : Conn Z := fun c =>
  let w := working c in
  let k := high_water w + 1 in
  if MAX_ROWID <? k then
    (logged (INSERT title content created_at updated_at) c,
     Raise HTTP_500_INTERNAL_SERVER_ERROR)
  else
    (Connection (committed c)
       (Database (<[k := Stored title content created_at updated_at]> (notes w)) k)
       (sent c ++ [INSERT title content created_at updated_at]),
     Ok k).

(** [conn.execute("UPDATE notes SET title = ?, content = ?, updated_at
    = ? WHERE id = ?", ...)] *)
Definition update (title content updated_at : str) (id : Z) : Conn unit := fun c =>
  let w := working c in
  if bindable w id then
    (Connection (committed c)
       (Database
          (alter (fun s => Stored title content (s_created_at s) updated_at) id (notes w))
          (seq w))
       (sent c ++ [UPDATE title content updated_at id]),
     Ok tt)
  else (c, Raise HTTP_500_INTERNAL_SERVER_ERROR).

(** [conn.execute("DELETE FROM notes WHERE id = ?", (id,))], returning
    [cur.rowcount]. *)
Definition delete_from (id : Z) : Conn Z := fun c =>
  let w := working c in
  if bindable w id then
    (Connection (committed c) (Database (delete id (notes w)) (seq w))
       (sent c ++ [DELETE id]),
     Ok (if notes w !! id is Some _ then 1 else 0))
  else (c, Raise HTTP_500_INTERNAL_SERVER_ERROR).

(** [conn.commit()] *)
Definition commit : Conn unit := fun c =>
  (Connection (working c) (working c) (sent c ++ [COMMIT]), Ok tt).

(** [with _db_conn() as conn: body]: open a connection on the file, run
    the body, and close the connection whether the body returned or
    raised; what was not committed is lost. *)
Definition _db_conn {A} (body : Conn A) : App A := fun w =>
  let '(c, r) := body (Connection (db w) (db w) (log w)) in
  (World (committed c) (sent c), r).

(** [_ensure_schema]: [CREATE TABLE IF NOT EXISTS notes (...)] leaves an
    existing table as it is. *)
Definition create_table : Conn unit := fun c =>
  (logged CREATE_TABLE_IF_NOT_EXISTS c, Ok tt).

Definition _ensure_schema : App unit :=
  _db_conn (create_table;; commit).

(** ** The pydantic models *)

(** [len(s)] *)
Definition len (s : str) : Z := Z.of_nat (length s).

(** The JSON object a client posts: each of [title] and [content] is a
    string or is left out. *)
Record body := Body {
  body_title : option str;
  body_content : option str;
}.

Module Note.
Record t := Make {
  id : Z;
  title : str;
  content : str;
  created_at : str;
  updated_at : str;
}.
End Note.

Module NoteCreate.
Record t := Make { title : str; content : str }.

(** The [field_validator("title")]; [None] is the [ValueError]. *)
Definition _title_non_empty (v : str) : option str :=
  let v2 := strip v in
  match v2 with
  | [] => None
  | _ :: _ => Some v2
  end.

(** Building the model from a body: the [Field] constraints apply to
    the value as sent, then the validator runs on it; [content]
    defaults to the empty string. *)
Definition validate (b : body) : option t :=
  match body_title b with
  | None => None
  | Some v =>
      if (1 <=? len v) && (len v <=? 200) then
        match _title_non_empty v with
        | None => None
        | Some v2 =>
            let c := default [] (body_content b) in
            if len c <=? 10000 then Some (Make v2 c) else None
        end
      else None
  end.
End NoteCreate.

Module NoteUpdate.
Record t := Make { title : str; content : str }.

Definition _title_non_empty (v : str) : option str :=
  let v2 := strip v in
  match v2 with
  | [] => None
  | _ :: _ => Some v2
  end.

Definition validate (b : body) : option t :=
  match body_title b with
  | None => None
  | Some v =>
      if (1 <=? len v) && (len v <=? 200) then
        match _title_non_empty v with
        | None => None
        | Some v2 =>
            let c := default [] (body_content b) in
            if len c <=? 10000 then Some (Make v2 c) else None
        end
      else None
  end.
End NoteUpdate.

Definition _row_to_note (row : Row) : Note.t :=
  Note.Make (row_id row) (row_title row) (row_content row)
            (row_created_at row) (row_updated_at row).

(** ** The handlers

    [utc_now] is what the clock reads when the handler calls
    [_utc_now_iso()]. *)

Definition health_check : App string := mret "Healthy"%string.

Definition list_notes : App (list Note.t) :=
  rows ← _db_conn select_all;
  mret (_row_to_note <$> rows).

Definition create_note (utc_now : datetime) (payload : NoteCreate.t) : App Note.t :=
  let now := _utc_now_iso utc_now in
  row ← _db_conn (
    note_id ← insert (NoteCreate.title payload) (NoteCreate.content payload) now now;
    commit;;
    select_by_id note_id);
  match row with
  | None => raise HTTP_500_INTERNAL_SERVER_ERROR
  | Some row => mret (_row_to_note row)
  end.

Definition get_note (id : Z) : App Note.t :=
  row ← _db_conn (select_by_id id);
  match row with
  | None => raise HTTP_404_NOT_FOUND
  | Some row => mret (_row_to_note row)
  end.

Definition update_note (utc_now : datetime) (payload : NoteUpdate.t) (id : Z) :
    App Note.t :=
  let now := _utc_now_iso utc_now in
  row ← _db_conn (
    exists_ ← select_1 id;
    match exists_ with
    | None => raise HTTP_404_NOT_FOUND
    | Some _ =>
        update (NoteUpdate.title payload) (NoteUpdate.content payload) now id;;
        commit;;
        select_by_id id
    end);
  match row with
  | None => raise HTTP_404_NOT_FOUND
  | Some row => mret (_row_to_note row)
  end.

Definition delete_note (id : Z) : App unit :=
  rowcount ← _db_conn (rowcount ← delete_from id; commit;; mret rowcount);
  if rowcount =? 0 then raise HTTP_404_NOT_FOUND else mret tt.

(** ** The routes *)

(** A request body against a model. *)
Definition parse {A} (validate : body -> option A) (b : body) : App A :=
  match validate b with
  | Some payload => mret payload
  | None => raise HTTP_422_UNPROCESSABLE_ENTITY
  end.

Inductive request :=
  | GET_root
  | GET_notes
  | POST_notes (b : body)
  | GET_notes_id (id : Z)
  | PUT_notes_id (id : Z) (b : body)
  | DELETE_notes_id (id : Z).

(** What a successful request answers with: 200 with a message, with a
    list of notes or with one note, 201 with the new note, 204 with
    nothing. *)
Inductive answer :=
  | Message (s : string)
  | NoteList (l : list Note.t)
  | OK (n : Note.t)
  | Created (n : Note.t)
  | NoContent.

(** One request through its route: the body is validated against its
    model, then the handler runs on it and on the id of the path.
    [utc_now] is the clock when the handler reads it.

    The handlers declare their path parameter as
    [id: int = Field(..., ge=1)].  [Field] is pydantic's: the framework
    takes a path parameter with its own [Path] only and refuses this
    declaration when the route is registered, so [ge=1] is applied to
    no request, and the handler bodies have no check of their own:
    every integer a handler is called with reaches storage. *)
Definition serve (utc_now : datetime) (r : request) : App answer :=
  match r with
  | GET_root => Message <$> health_check
  | GET_notes => NoteList <$> list_notes
  | POST_notes b =>
      payload ← parse NoteCreate.validate b;
      Created <$> create_note utc_now payload
  | GET_notes_id id => OK <$> get_note id
  | PUT_notes_id id b =>
      payload ← parse NoteUpdate.validate b;
      OK <$> update_note utc_now payload id
  | DELETE_notes_id id =>
      delete_note id;;
      mret NoContent
  end.

(** A sequence of requests, each with its clock reading, served one
    after the other; the answers come back in the same order. *)
Fixpoint run (w : world) (rs : list (datetime * request)) :
    world * list (result answer) :=
  match rs with
  | [] => (w, [])
  | (utc_now, r) :: rs' =>
      let '(w1, a) := serve utc_now r w in
      let '(w2, l) := run w1 rs' in
      (w2, a :: l)
  end.

(** ** Notions the properties are stated with *)

(** What [sqlite_sequence] guarantees for a table that has been
    AUTOINCREMENT from its creation: no key exceeds the counter. *)
Definition db_wf (d : database) : Prop :=
  forall k, is_Some (notes d !! k) -> k <= seq d.

(** The note a stored row is read back as. *)
Definition note_of (k : Z) (s : stored) : Note.t :=
  _row_to_note (to_row (k, s)).

(** A title as the data model wants it: not empty, not made of
    whitespace only, and already trimmed. *)
Definition title_ok (t : str) : Prop :=
  t <> [] /\ forallb is_space t = false /\ strip t = t.

(** The notes an answer carries. *)
Definition notes_of (a : result answer) : list Note.t :=
  match a with
  | Ok (NoteList l) => l
  | Ok (OK n) | Ok (Created n) => [n]
  | _ => []
  end.

(** [n1] comes no later than [n2] in the listing: a later [updated_at],
    or the same one and an id at least as large. *)
Definition note_before (n1 n2 : Note.t) : Prop :=
  str_lt (Note.updated_at n2) (Note.updated_at n1) \/
  (Note.updated_at n1 = Note.updated_at n2 /\ Note.id n2 <= Note.id n1).

(** A stored row as the data model wants it. *)
Definition row_ok (s : stored) : Prop :=
  title_ok (s_title s) /\ str_le (s_created_at s) (s_updated_at s).

(** No row of the database was created after the clock reading
    [now]. *)
Definition created_by (d : database) (now : str) : Prop :=
  map_Forall (fun _ s => str_le (s_created_at s) now) (notes d).

Global Instance datetime_le_dec t1 t2 : Decision (datetime_le t1 t2).
Proof. unfold datetime_le. apply _. Defined.

Global Instance datetime_ok_dec t : Decision (datetime_ok t).
Proof. unfold datetime_ok. apply _. Defined.

Global Instance str_le_dec a b : Decision (str_le a b).
Proof. unfold str_le. apply _. Defined.

Global Instance title_ok_dec t : Decision (title_ok t).
Proof. unfold title_ok. apply _. Defined.

Global Instance row_ok_dec s : Decision (row_ok s).
Proof. unfold row_ok. apply _. Defined.

Global Instance created_by_dec d now : Decision (created_by d now).
Proof. unfold created_by. apply _. Defined.

Global Instance db_wf_dec d : Decision (db_wf d).
Proof.
  refine (cast_if (decide (map_Forall (fun k _ => k <= seq d) (notes d))));
    unfold db_wf.
  - intros k [s Hs]. exact (m k s Hs).
  - intros H. apply n. intros k s Hs. apply H. rewrite Hs. eauto.
Defined.

(** ** Sample data *)

(** The database right after [_ensure_schema] on a new file. *)
Definition fresh : world := World (Database ∅ 0) [].

(** Two readings of the clock: midnight on 1 and on 2 January 2024,
    written [2024-01-01T00:00:00+00:00] and [2024-01-02T00:00:00+00:00]. *)
Definition clock_jan_1 : datetime := Datetime 2024 1 1 0 0 0 0.
Definition clock_jan_2 : datetime := Datetime 2024 1 2 0 0 0 0.
Definition jan_1 : str := _utc_now_iso clock_jan_1.
Definition jan_2 : str := _utc_now_iso clock_jan_2.

Definition body_A : body := Body (Some (py " A ")) None.
Definition body_B : body := Body (Some (py "B")) (Some (py "x")).

(** The world after one note was created on 2 January. *)
Definition one_note : world := (run fresh [(clock_jan_2, POST_notes body_A)]).1.

(** A create on 1 January, then an update of that note on 2 January. *)
Definition create_then_update : list (datetime * request) :=
  [(clock_jan_1, POST_notes body_A); (clock_jan_2, PUT_notes_id 1 body_B)].

(** The first integer above the signed 64-bit range, [2 ** 63]. *)
Definition huge_id : Z := 9223372036854775808.

(** 201 characters, one of them not a space. *)
Definition long_title : str := py "a" ++ repeat 32%N 200.

(** ** Configuration *)

(** The path [get_db_path] falls back to. *)
Definition DEFAULT_DB_PATH : str :=
  py "/home/kavia/workspace/code-generation/simple-notes-app-312508-312525/database/myapp.db".

(** [get_db_path()], given what [os.getenv("SQLITE_DB")] returns: the
    variable when it is set and not empty ([if env_path:]), else the
    default. *)
Definition get_db_path (SQLITE_DB : option str) : str :=
  match SQLITE_DB with
  | Some (c :: env_path) => c :: env_path
  | Some [] | None => DEFAULT_DB_PATH
  end.

(** The path separator, [/]. *)
Definition is_sep (c : N) : bool := (c =? 47)%N.

(** [p[:p.rfind("/") + 1]]: [p] up to its last separator, the empty
    string when it has none. *)
Fixpoint upto_last_sep (p : str) : str :=
  match p with
  | [] => []
  | c :: p' =>
      match upto_last_sep p' with
      | [] => if is_sep c then [c] else []
      | head => c :: head
      end
  end.

Fixpoint lstrip_sep (s : str) : str :=
  match s with
  | [] => []
  | c :: s' => if is_sep c then lstrip_sep s' else s
  end.

(** [os.path.dirname(p)] on POSIX: the head up to the last separator,
    without its trailing separators unless it is made of separators
    only. *)
Definition dirname (p : str) : str :=
  let head := upto_last_sep p in
  if forallb is_sep head then head else rev (lstrip_sep (rev head)).

(** The directory [_db_conn] passes to [os.makedirs]. *)
Definition db_dirname (SQLITE_DB : option str) : str :=
  dirname (get_db_path SQLITE_DB).

(** [_on_startup] *)
Definition _on_startup : App unit := _ensure_schema.

(** ** Notions the further properties are stated with *)

(** No row of the database was updated after the clock reading
    [now]. *)
Definition updated_by (d : database) (now : str) : Prop :=
  map_Forall (fun _ s => str_le (s_updated_at s) now) (notes d).

Global Instance updated_by_dec d now : Decision (updated_by d now).
Proof. unfold updated_by. apply _. Defined.

(** Every row but the one with key [id] was last updated strictly
    before the clock reading [now]. *)
Definition others_older (d : database) (id : Z) (now : str) : Prop :=
  map_Forall (fun k s => k <> id -> str_lt (s_updated_at s) now) (notes d).

Global Instance str_lt_dec a b : Decision (str_lt a b).
Proof. unfold str_lt. apply _. Defined.

Global Instance others_older_dec d id now : Decision (others_older d id now).
Proof. unfold others_older. apply _. Defined.

(** Ids as SQLite hands them out: the counter is not negative and every
    key is at least 1. *)
Definition ids_from_one (d : database) : Prop :=
  0 <= seq d /\ map_Forall (fun k _ => 1 <= k) (notes d).

Global Instance ids_from_one_dec d : Decision (ids_from_one d).
Proof. unfold ids_from_one. apply _. Defined.

Global Instance note_before_dec n1 n2 : Decision (note_before n1 n2).
Proof. unfold note_before. apply _. Defined.

(** The requests that only read. *)
Definition is_read (r : request) : bool :=
  match r with
  | GET_root | GET_notes | GET_notes_id _ => true
  | _ => false
  end.

Definition is_select (s : stmt) : bool :=
  match s with
  | SELECT_ALL_ORDERED | SELECT_BY_ID _ | SELECT_1 _ => true
  | _ => false
  end.

Definition is_commit (s : stmt) : bool :=
  match s with
  | COMMIT => true
  | _ => false
  end.

(** How many answers of a run are a 201, and how many a 204. *)
Definition is_created (a : result answer) : bool :=
  match a with
  | Ok (Created _) => true
  | _ => false
  end.

Definition is_no_content (a : result answer) : bool :=
  match a with
  | Ok NoContent => true
  | _ => false
  end.

Definition count (f : result answer -> bool) (l : list (result answer)) : Z :=
  Z.of_nat (length (List.filter f l)).

(** The listing [GET /notes] answers with. *)
Definition listing (d : database) : list Note.t :=
  _row_to_note <$> merge_sort Order_by (to_row <$> map_to_list (notes d)).

(** A note whose id is not [id]. *)
Definition other_than (id : Z) (n : Note.t) : Prop := Note.id n <> id.

Global Instance other_than_dec id n : Decision (other_than id n).
Proof. unfold other_than. apply _. Defined.

(** A code point a UTF-8 text can hold: a Unicode scalar value, that
    is, not a surrogate.  A JSON body can spell a lone surrogate with
    an escape; the [str] that comes out of it is one pydantic refuses
    whatever the model, so the models are compared on bodies without
    any. *)
Definition is_scalar (c : N) : bool :=
  (((c <? 0xD800) || (0xDFFF <? c)) && (c <=? 0x10FFFF))%N.

Definition well_formed (s : str) : bool := forallb is_scalar s.

Definition body_well_formed (b : body) : bool :=
  from_option well_formed true (body_title b) &&
  from_option well_formed true (body_content b).

(** More sample data: a world with three notes, and a clock reading on
    3 January. *)
Definition clock_jan_3 : datetime := Datetime 2024 1 3 0 0 0 0.
Definition jan_3 : str := _utc_now_iso clock_jan_3.

Definition three_notes : world :=
  (run fresh [(clock_jan_1, POST_notes body_A);
              (clock_jan_1, POST_notes body_B);
              (clock_jan_2, POST_notes body_A)]).1.

(** * Properties *)

(** ** The order on TEXT values *)

Section str_order.
Implicit Types a b c : str.

Lemma str_compare_refl a : str_compare a a = Eq.
Proof. induction a as [|x a IH]; simpl; [done|]. by rewrite N.compare_refl. Qed.

Lemma str_compare_eq a b : str_compare a b = Eq -> a = b.
Proof.
  revert b. induction a as [|x a IH]; intros [|y b]; simpl; try done.
  destruct (N.compare_spec x y) as [->| |]; try done.
  intros H. by rewrite (IH b H).
Qed.

Lemma str_compare_antisym a b : str_compare b a = CompOpp (str_compare a b).
Proof.
  revert b. induction a as [|x a IH]; intros [|y b]; simpl; try done.
  rewrite (N.compare_antisym x y).
  destruct (N.compare x y); simpl; auto.
Qed.

Lemma str_compare_lt_trans a b c :
  str_compare a b = Lt -> str_compare b c = Lt -> str_compare a c = Lt.
Proof.
  revert b c. induction a as [|x a IH]; intros [|y b] [|z c]; simpl; try done.
  destruct (N.compare_spec x y) as [->|Hxy|Hxy]; try done.
  - destruct (N.compare y z); eauto.
  - intros _. destruct (N.compare_spec y z) as [->|Hyz|Hyz]; try done.
    + intros _. apply N.compare_lt_iff in Hxy. by rewrite Hxy.
    + intros _. assert (H : (x < z)%N) by (by etrans).
      apply N.compare_lt_iff in H. by rewrite H.
Qed.

Lemma str_le_refl a : str_le a a.
Proof. unfold str_le, str_leb. by rewrite str_compare_refl. Qed.

Lemma str_le_lt_dec a b : {str_le a b} + {str_lt b a}.
Proof.
  unfold str_le, str_leb, str_lt. rewrite (str_compare_antisym a b).
  destruct (str_compare a b); simpl; auto.
Qed.

Lemma str_lt_not_le a b : str_lt b a -> ~ str_le a b.
Proof.
  unfold str_le, str_leb, str_lt. rewrite (str_compare_antisym a b).
  destruct (str_compare a b); simpl; congruence.
Qed.
End str_order.

(** ** [isoformat] keeps the order of time *)

Lemma str_compare_cons c a b : str_compare (c :: a) (c :: b) = str_compare a b.
Proof. simpl. by rewrite N.compare_refl. Qed.

Lemma N_add_compare a b c : (a + b ?= a + c)%N = (b ?= c)%N.
Proof.
  destruct (N.compare_spec b c) as [->|H|H].
  - apply N.compare_refl.
  - apply N.compare_lt_iff. lia.
  - apply N.compare_gt_iff. lia.
Qed.

Lemma quot_lt (p q1 r1 q2 r2 : N) :
  (r1 < p)%N -> (q1 < q2)%N -> (p * q1 + r1 < p * q2 + r2)%N.
Proof.
  intros Hr Hq.
  assert (p * (q1 + 1) <= p * q2)%N by (apply N.mul_le_mono_l; lia). lia.
Qed.

Lemma zfill_compare w : forall n m x y,
  (n < 10 ^ N.of_nat w)%N -> (m < 10 ^ N.of_nat w)%N ->
  str_compare (zfill w n ++ x) (zfill w m ++ y) = lex (n ?= m)%N (str_compare x y).
Proof.
  induction w as [|w IH]; intros n m x y Hn Hm.
  - simpl in *. assert (n = 0%N) as -> by lia. assert (m = 0%N) as -> by lia. done.
  - rewrite Nat2N.inj_succ, N.pow_succ_r' in Hn, Hm.
    set (p := (10 ^ N.of_nat w)%N) in *.
    assert (Hp : (0 < p)%N) by (apply N.neq_0_lt_0, N.pow_nonzero; lia).
    pose proof (N.div_mod n p ltac:(lia)) as Dn.
    pose proof (N.div_mod m p ltac:(lia)) as Dm.
    pose proof (N.mod_lt n p ltac:(lia)) as Rn.
    pose proof (N.mod_lt m p ltac:(lia)) as Rm.
    cbn [zfill app str_compare]. fold p.
    rewrite N_add_compare.
    destruct (N.compare_spec (n / p) (m / p)) as [Hq|Hq|Hq].
    + rewrite (IH _ _ x y Rn Rm).
      replace (n ?= m)%N with (n mod p ?= m mod p)%N; [done|].
      rewrite Dn, Dm at 2. rewrite Hq. by rewrite N_add_compare.
    + assert (n < m)%N as ->%N.compare_lt_iff; [|done].
      rewrite Dn, Dm. by apply quot_lt.
    + assert (m < n)%N as ->%N.compare_gt_iff; [|done].
      rewrite Dn, Dm. by apply quot_lt.
Qed.

(** The TEXT order on two timestamps the program writes is the order of
    the instants they stand for. *)
Lemma isoformat_compare t1 t2 :
  datetime_ok t1 -> datetime_ok t2 ->
  str_compare (_utc_now_iso t1) (_utc_now_iso t2) = datetime_compare t1 t2.
Proof.
  intros (Hy1 & Hmo1 & Hd1 & Hh1 & Hmi1 & Hs1 & Hu1)
         (Hy2 & Hmo2 & Hd2 & Hh2 & Hmi2 & Hs2 & Hu2).
  unfold _utc_now_iso, isoformat, datetime_compare.
  rewrite (zfill_compare 4) by done. f_equal.
  do 5 (cbn [py map list_ascii_of_string app]; rewrite str_compare_cons;
        rewrite (zfill_compare 2) by done; f_equal).
  destruct (N.eqb_spec (microsecond t1) 0) as [->|H1],
           (N.eqb_spec (microsecond t2) 0) as [->|H2].
  - apply str_compare_refl.
  - assert (0 < microsecond t2)%N as ->%N.compare_lt_iff by lia. done.
  - assert (0 < microsecond t1)%N as ->%N.compare_gt_iff by lia. done.
  - cbn [py map list_ascii_of_string app]. rewrite str_compare_cons.
    rewrite (zfill_compare 6) by done. rewrite str_compare_refl.
    unfold lex. by destruct (_ ?= _)%N.
Qed.

Lemma isoformat_le t1 t2 :
  datetime_ok t1 -> datetime_ok t2 ->
  datetime_le t1 t2 <-> str_le (_utc_now_iso t1) (_utc_now_iso t2).
Proof.
  intros H1 H2. unfold datetime_le, str_le, str_leb.
  rewrite (isoformat_compare _ _ H1 H2).
  by destruct (datetime_compare t1 t2).
Qed.

Global Instance Order_by_total : Total Order_by.
Proof.
  intros r1 r2. unfold Order_by, order_by.
  rewrite (str_compare_antisym (row_updated_at r2) (row_updated_at r1)).
  destruct (str_compare (row_updated_at r2) (row_updated_at r1)); simpl; auto.
  destruct (Z.le_ge_cases (row_id r2) (row_id r1)); [left|right]; lia.
Qed.

Global Instance Order_by_trans : Transitive Order_by.
Proof.
  intros r1 r2 r3. unfold Order_by, order_by.
  destruct (str_compare (row_updated_at r2) (row_updated_at r1)) eqn:E21; try done;
    destruct (str_compare (row_updated_at r3) (row_updated_at r2)) eqn:E32; try done.
  - apply str_compare_eq in E21, E32. rewrite <- E21, E32, str_compare_refl. lia.
  - apply str_compare_eq in E21. rewrite <- E21, E32. done.
  - apply str_compare_eq in E32. rewrite E32, E21. done.
  - by rewrite (str_compare_lt_trans _ _ _ E32 E21).
Qed.

(** ** The AUTOINCREMENT counter *)

Lemma high_water_spec d :
  seq d <= high_water d /\
  (forall k, is_Some (notes d !! k) -> k <= high_water d) /\
  (high_water d = seq d \/ is_Some (notes d !! high_water d)).
Proof.
  unfold high_water.
  apply (map_fold_weak_ind
    (fun r (m : gmap Z stored) =>
       seq d <= r /\ (forall k, is_Some (m !! k) -> k <= r) /\
       (r = seq d \/ is_Some (m !! r)))).
  - split; [lia|]. split; [|by left].
    intros k [s Hs]. by rewrite lookup_empty in Hs.
  - intros i x m r Hi (Hseq & Hub & Hmax). split; [lia|]. split.
    + intros k. rewrite lookup_insert. case_decide; [lia|].
      intros Hk. specialize (Hub k Hk). lia.
    + destruct (Z.max_spec i r) as [[? ->]|[? ->]].
      * destruct Hmax as [->|Hr]; [by left|right].
        rewrite lookup_insert_ne; [done|]. intros ->. lia.
      * right. rewrite lookup_insert_eq. eauto.
Qed.

Lemma high_water_fresh d : notes d !! (high_water d + 1) = None.
Proof.
  destruct (notes d !! (high_water d + 1)) as [s|] eqn:E; [|done].
  destruct (high_water_spec d) as (_ & Hub & _).
  specialize (Hub (high_water d + 1)). rewrite E in Hub.
  specialize (Hub (mk_is_Some _ _ eq_refl)). lia.
Qed.

Lemma high_water_wf d : db_wf d -> high_water d = seq d.
Proof.
  intros Hwf. destruct (high_water_spec d) as (Hseq & _ & [?|Hmax]); [done|].
  specialize (Hwf _ Hmax). lia.
Qed.

(** ** What each handler computes *)

Lemma list_notes_eq w :
  list_notes w =
    (World (db w) (log w ++ [SELECT_ALL_ORDERED]),
     Ok (_row_to_note <$> merge_sort Order_by (to_row <$> map_to_list (notes (db w))))).
Proof. done. Qed.

Lemma get_note_eq id w :
  get_note id w =
    match notes (db w) !! id with
    | Some s =>
        (World (db w) (log w ++ [SELECT_BY_ID id]), Ok (note_of id s))
    | None =>
        if in_range id then
          (World (db w) (log w ++ [SELECT_BY_ID id]), Raise HTTP_404_NOT_FOUND)
        else (World (db w) (log w), Raise HTTP_500_INTERNAL_SERVER_ERROR)
    end.
Proof.
  unfold get_note, mbind, SE_bind, _db_conn, select_by_id, bindable; simpl.
  destruct (notes (db w) !! id); [done|]. by destruct (in_range id).
Qed.

Lemma create_note_eq clock p w :
  create_note clock p w =
    let now := _utc_now_iso clock in
    let k := high_water (db w) + 1 in
    let s := Stored (NoteCreate.title p) (NoteCreate.content p) now now in
    let i := INSERT (NoteCreate.title p) (NoteCreate.content p) now now in
    if MAX_ROWID <? k then
      (World (db w) (log w ++ [i]), Raise HTTP_500_INTERNAL_SERVER_ERROR)
    else
      (World (Database (<[k := s]> (notes (db w))) k)
             (log w ++ [i; COMMIT; SELECT_BY_ID k]),
       Ok (note_of k s)).
Proof.
  unfold create_note, mbind, SE_bind, _db_conn, insert, commit, select_by_id,
    bindable; simpl.
  destruct (MAX_ROWID <? high_water (db w) + 1); simpl; [done|].
  rewrite lookup_insert_eq; simpl. by rewrite <- !app_assoc.
Qed.

Lemma alter_lookup_insert (f : stored -> stored) (m : gmap Z stored) i s :
  m !! i = Some s -> alter f i m = <[i := f s]> m.
Proof.
  intros Hi. apply map_eq. intros j. destruct (decide (i = j)) as [->|Hne].
  - by rewrite lookup_alter_eq, lookup_insert_eq, Hi.
  - by rewrite lookup_alter_ne, lookup_insert_ne.
Qed.

Lemma update_note_eq clock p id w :
  update_note clock p id w =
    let now := _utc_now_iso clock in
    match notes (db w) !! id with
    | None =>
        if in_range id then
          (World (db w) (log w ++ [SELECT_1 id]), Raise HTTP_404_NOT_FOUND)
        else (World (db w) (log w), Raise HTTP_500_INTERNAL_SERVER_ERROR)
    | Some s =>
        let s' := Stored (NoteUpdate.title p) (NoteUpdate.content p)
                         (s_created_at s) now in
        (World (Database (<[id := s']> (notes (db w))) (seq (db w)))
               (log w ++ [SELECT_1 id;
                          UPDATE (NoteUpdate.title p) (NoteUpdate.content p) now id;
                          COMMIT; SELECT_BY_ID id]),
         Ok (note_of id s'))
    end.
Proof.
  unfold update_note, mbind, SE_bind, _db_conn, select_1, update, commit,
    select_by_id, bindable; simpl.
  destruct (notes (db w) !! id) as [s|] eqn:E; simpl.
  - rewrite E; simpl.
    rewrite (alter_lookup_insert _ _ _ _ E), lookup_insert_eq; simpl.
    by rewrite <- !app_assoc.
  - by destruct (in_range id).
Qed.

Lemma delete_note_eq id w :
  delete_note id w =
    match notes (db w) !! id with
    | Some _ =>
        (World (Database (delete id (notes (db w))) (seq (db w)))
               (log w ++ [DELETE id; COMMIT]),
         Ok tt)
    | None =>
        if in_range id then
          (World (Database (delete id (notes (db w))) (seq (db w)))
                 (log w ++ [DELETE id; COMMIT]),
           Raise HTTP_404_NOT_FOUND)
        else (World (db w) (log w), Raise HTTP_500_INTERNAL_SERVER_ERROR)
    end.
Proof.
  unfold delete_note, mbind, SE_bind, _db_conn, delete_from, commit, bindable;
    simpl.
  destruct (notes (db w) !! id); simpl; [by rewrite <- !app_assoc|].
  destruct (in_range id); simpl; [by rewrite <- !app_assoc|done].
Qed.

(** Without [conn.commit()] the file keeps what it held: closing the
    connection drops the open transaction. *)
Lemma uncommitted_insert_is_lost t c ca ua w :
  db (_db_conn (insert t c ca ua) w).1 = db w.
Proof. unfold _db_conn, insert; simpl. by destruct (MAX_ROWID <? _). Qed.

Lemma _ensure_schema_keeps_db w :
  _ensure_schema w =
    (World (db w) (log w ++ [CREATE_TABLE_IF_NOT_EXISTS; COMMIT]), Ok tt).
Proof.
  unfold _ensure_schema, mbind, SE_bind, _db_conn, create_table, commit; simpl.
  by rewrite <- app_assoc.
Qed.

(** ** [strip] *)

Section strip.
Implicit Types s t : str.

Lemma lstrip_all_space s : forallb is_space s = true -> lstrip s = [].
Proof.
  induction s as [|c s IH]; simpl; [done|].
  intros [Hc Hs]%andb_prop. rewrite Hc. auto.
Qed.

Lemma strip_all_space s : forallb is_space s = true -> strip s = [].
Proof. intros H. unfold strip. by rewrite (lstrip_all_space s H). Qed.

Lemma lstrip_head s :
  lstrip s = [] \/ exists c u, lstrip s = c :: u /\ is_space c = false.
Proof.
  induction s as [|c s IH]; simpl; [by left|].
  destruct (is_space c) eqn:E; [done|]. right. eauto.
Qed.

Lemma lstrip_idemp s : lstrip (lstrip s) = lstrip s.
Proof.
  destruct (lstrip_head s) as [->|(c & u & -> & Hc)]; simpl; [done|].
  by rewrite Hc.
Qed.

Lemma lstrip_snoc s c :
  is_space c = false -> lstrip (s ++ [c]) = lstrip s ++ [c].
Proof.
  intros Hc. induction s as [|x s IH]; simpl; [by rewrite Hc|].
  by destruct (is_space x).
Qed.

Lemma rstrip_cons c s :
  is_space c = false -> rstrip (c :: s) = c :: rstrip s.
Proof.
  intros Hc. unfold rstrip; simpl.
  by rewrite (lstrip_snoc _ _ Hc), rev_app_distr.
Qed.

Lemma rstrip_idemp s : rstrip (rstrip s) = rstrip s.
Proof. unfold rstrip. by rewrite rev_involutive, lstrip_idemp. Qed.

Lemma strip_idemp s : strip (strip s) = strip s.
Proof.
  unfold strip.
  destruct (lstrip_head s) as [->|(c & u & -> & Hc)]; [done|].
  rewrite (rstrip_cons _ _ Hc); simpl. rewrite Hc.
  by rewrite <- (rstrip_cons _ _ Hc), rstrip_idemp.
Qed.

Lemma length_lstrip s : (length (lstrip s) <= length s)%nat.
Proof.
  induction s as [|c s IH]; simpl; [done|].
  destruct (is_space c); simpl; lia.
Qed.

Lemma len_strip s : len (strip s) <= len s.
Proof.
  unfold len, strip, rstrip. rewrite length_rev.
  pose proof (length_lstrip (rev (lstrip s))) as H1.
  rewrite length_rev in H1. pose proof (length_lstrip s). lia.
Qed.
End strip.

(** ** The models *)

Lemma title_ok_strip t : strip t <> [] -> title_ok (strip t).
Proof.
  intros Hne. split; [done|]. split; [|apply strip_idemp].
  destruct (forallb is_space (strip t)) eqn:E; [|done].
  apply strip_all_space in E. rewrite strip_idemp in E. done.
Qed.

Lemma NoteCreate_validate_Some b p :
  NoteCreate.validate b = Some p <->
  exists t,
    body_title b = Some t /\ 1 <= len t <= 200 /\ strip t <> [] /\
    len (default [] (body_content b)) <= 10000 /\
    p = NoteCreate.Make (strip t) (default [] (body_content b)).
Proof.
  unfold NoteCreate.validate, NoteCreate._title_non_empty.
  destruct (body_title b) as [t|]; [|split; [done|by intros (? & [=] & _)]].
  destruct (Z.leb_spec 1 (len t)) as [Hlo|Hlo],
           (Z.leb_spec (len t) 200) as [Hhi|Hhi]; simpl;
    try (split; [done|intros (? & [= <-] & ?); lia]).
  destruct (strip t) as [|c u] eqn:Et.
  { split; [done|]. by intros (? & [= <-] & _ & Hne & _). }
  destruct (Z.leb_spec (len (default [] (body_content b))) 10000) as [Hc|Hc].
  - split.
    + intros [= <-]. exists t. by rewrite Et.
    + intros (? & [= <-] & _ & _ & _ & ->). by rewrite Et.
  - split; [done|]. intros (? & _ & _ & _ & ? & _). lia.
Qed.

Lemma NoteUpdate_validate_Some b p :
  NoteUpdate.validate b = Some p <->
  exists t,
    body_title b = Some t /\ 1 <= len t <= 200 /\ strip t <> [] /\
    len (default [] (body_content b)) <= 10000 /\
    p = NoteUpdate.Make (strip t) (default [] (body_content b)).
Proof.
  unfold NoteUpdate.validate, NoteUpdate._title_non_empty.
  destruct (body_title b) as [t|]; [|split; [done|by intros (? & [=] & _)]].
  destruct (Z.leb_spec 1 (len t)) as [Hlo|Hlo],
           (Z.leb_spec (len t) 200) as [Hhi|Hhi]; simpl;
    try (split; [done|intros (? & [= <-] & ?); lia]).
  destruct (strip t) as [|c u] eqn:Et.
  { split; [done|]. by intros (? & [= <-] & _ & Hne & _). }
  destruct (Z.leb_spec (len (default [] (body_content b))) 10000) as [Hc|Hc].
  - split.
    + intros [= <-]. exists t. by rewrite Et.
    + intros (? & [= <-] & _ & _ & _ & ->). by rewrite Et.
  - split; [done|]. intros (? & _ & _ & _ & ? & _). lia.
Qed.

(** ** The routes *)

Lemma serve_GET_notes clock w :
  serve clock GET_notes w =
    (World (db w) (log w ++ [SELECT_ALL_ORDERED]),
     Ok (NoteList (_row_to_note <$>
           merge_sort Order_by (to_row <$> map_to_list (notes (db w)))))).
Proof. done. Qed.

Lemma serve_POST clock b w :
  serve clock (POST_notes b) w =
    let now := _utc_now_iso clock in
    match NoteCreate.validate b with
    | None => (w, Raise HTTP_422_UNPROCESSABLE_ENTITY)
    | Some p =>
        let k := high_water (db w) + 1 in
        let s := Stored (NoteCreate.title p) (NoteCreate.content p) now now in
        let i := INSERT (NoteCreate.title p) (NoteCreate.content p) now now in
        if MAX_ROWID <? k then
          (World (db w) (log w ++ [i]), Raise HTTP_500_INTERNAL_SERVER_ERROR)
        else
          (World (Database (<[k := s]> (notes (db w))) k)
                 (log w ++ [i; COMMIT; SELECT_BY_ID k]),
           Ok (Created (note_of k s)))
    end.
Proof.
  unfold serve, mbind, SE_bind, fmap, SE_fmap, parse.
  destruct (NoteCreate.validate b) as [p|]; simpl; [|done].
  rewrite create_note_eq; simpl. by destruct (MAX_ROWID <? _).
Qed.

Lemma serve_GET clock id w :
  serve clock (GET_notes_id id) w =
    match notes (db w) !! id with
    | Some s =>
        (World (db w) (log w ++ [SELECT_BY_ID id]), Ok (OK (note_of id s)))
    | None =>
        if in_range id then
          (World (db w) (log w ++ [SELECT_BY_ID id]), Raise HTTP_404_NOT_FOUND)
        else (World (db w) (log w), Raise HTTP_500_INTERNAL_SERVER_ERROR)
    end.
Proof.
  unfold serve, fmap, SE_fmap. rewrite get_note_eq.
  destruct (notes (db w) !! id); [done|]. by destruct (in_range id).
Qed.

Lemma serve_PUT clock id b w :
  serve clock (PUT_notes_id id b) w =
    let now := _utc_now_iso clock in
    match NoteUpdate.validate b with
    | None => (w, Raise HTTP_422_UNPROCESSABLE_ENTITY)
    | Some p =>
        match notes (db w) !! id with
        | None =>
            if in_range id then
              (World (db w) (log w ++ [SELECT_1 id]), Raise HTTP_404_NOT_FOUND)
            else (World (db w) (log w), Raise HTTP_500_INTERNAL_SERVER_ERROR)
        | Some s =>
            let s' := Stored (NoteUpdate.title p) (NoteUpdate.content p)
                             (s_created_at s) now in
            (World (Database (<[id := s']> (notes (db w))) (seq (db w)))
               (log w ++ [SELECT_1 id;
                          UPDATE (NoteUpdate.title p) (NoteUpdate.content p) now id;
                          COMMIT; SELECT_BY_ID id]),
             Ok (OK (note_of id s')))
        end
    end.
Proof.
  unfold serve, mbind, SE_bind, fmap, SE_fmap, parse.
  destruct (NoteUpdate.validate b) as [p|]; simpl; [|done].
  rewrite update_note_eq. cbv zeta.
  destruct (notes (db w) !! id); [done|]. by destruct (in_range id).
Qed.

Lemma serve_DELETE clock id w :
  serve clock (DELETE_notes_id id) w =
    match notes (db w) !! id with
    | Some _ =>
        (World (Database (delete id (notes (db w))) (seq (db w)))
               (log w ++ [DELETE id; COMMIT]),
         Ok NoContent)
    | None =>
        if in_range id then
          (World (Database (delete id (notes (db w))) (seq (db w)))
                 (log w ++ [DELETE id; COMMIT]),
           Raise HTTP_404_NOT_FOUND)
        else (World (db w) (log w), Raise HTTP_500_INTERNAL_SERVER_ERROR)
    end.
Proof.
  unfold serve, mbind, SE_bind. rewrite delete_note_eq.
  destruct (notes (db w) !! id); [done|]. by destruct (in_range id).
Qed.

(** The integers of the signed 64-bit range, as a proposition. *)
Lemma in_range_spec id :
  in_range id = true <-> MIN_ROWID <= id <= MAX_ROWID.
Proof. unfold in_range. rewrite andb_true_iff, !Z.leb_le. tauto. Qed.

Lemma elem_of_select_all (m : gmap Z stored) n :
  n ∈ _row_to_note <$> merge_sort Order_by (to_row <$> map_to_list m) <->
  exists k s, m !! k = Some s /\ n = note_of k s.
Proof.
  rewrite list_elem_of_fmap. setoid_rewrite merge_sort_Permutation.
  setoid_rewrite list_elem_of_fmap. split.
  - intros (r & -> & [k s] & -> & Hks). apply elem_of_map_to_list in Hks. eauto.
  - intros (k & s & Hks & ->). exists (to_row (k, s)). split; [done|].
    exists (k, s). split; [done|]. by apply elem_of_map_to_list.
Qed.

(** One request from a well-formed database: the counter never goes
    back, a key that appears is above the old counter, and every note
    in the answer is a row of the table afterwards. *)
Lemma serve_step clock r w w' a :
  serve clock r w = (w', a) ->
  db_wf (db w) ->
  db_wf (db w') /\
  seq (db w) <= seq (db w') /\
  (forall k, is_Some (notes (db w') !! k) ->
     is_Some (notes (db w) !! k) \/ seq (db w) < k) /\
  (forall n, n ∈ notes_of a -> is_Some (notes (db w') !! Note.id n)) /\
  (forall n, a = Ok (Created n) -> Note.id n = seq (db w) + 1).
Proof.
  intros Hs Hwf. destruct r as [| |b|id|id b|id].
  - injection Hs as <- <-. repeat split; auto; try lia; try done.
    intros n Hn. by apply elem_of_nil in Hn.
  - rewrite serve_GET_notes in Hs. injection Hs as <- <-; simpl.
    repeat split; auto; try lia; try done.
    intros n (k & s & Hks & ->)%elem_of_select_all. simpl. eauto.
  - rewrite serve_POST in Hs. rewrite (high_water_wf _ Hwf) in Hs.
    destruct (NoteCreate.validate b) as [p|]; simpl in Hs.
    2:{ injection Hs as <- <-. repeat split; auto; try lia; try done.
        intros n Hn. by apply elem_of_nil in Hn. }
    destruct (MAX_ROWID <? seq (db w) + 1); injection Hs as <- <-; simpl.
    { repeat split; auto; try lia; try done.
      intros n Hn. by apply elem_of_nil in Hn. }
    repeat split; try lia.
    + intros k. simpl. rewrite lookup_insert. case_decide; [lia|].
      intros Hk. specialize (Hwf k Hk). lia.
    + intros k. rewrite lookup_insert. case_decide; [right; lia|auto].
    + intros n ->%list_elem_of_singleton. simpl. rewrite lookup_insert_eq. eauto.
    + by intros n [= <-].
  - rewrite serve_GET in Hs.
    destruct (notes (db w) !! id) as [s|] eqn:E; [|destruct (in_range id)];
      injection Hs as <- <-; simpl.
    + repeat split; auto; try lia; try done.
      intros n ->%list_elem_of_singleton. simpl. rewrite E. eauto.
    + repeat split; auto; try lia; try done.
      intros n Hn. by apply elem_of_nil in Hn.
    + repeat split; auto; try lia; try done.
      intros n Hn. by apply elem_of_nil in Hn.
  - rewrite serve_PUT in Hs. cbv zeta in Hs.
    destruct (NoteUpdate.validate b) as [p|].
    2:{ injection Hs as <- <-. repeat split; auto; try lia; try done.
        intros n Hn. by apply elem_of_nil in Hn. }
    destruct (notes (db w) !! id) as [s|] eqn:E; [|destruct (in_range id)];
      injection Hs as <- <-; simpl.
    2,3: repeat split; auto; try lia; try done;
         intros n Hn; by apply elem_of_nil in Hn.
    repeat split; try lia; try done.
    + intros k. simpl. rewrite lookup_insert. case_decide as Hk; [|by auto].
      subst k. intros _. apply Hwf. rewrite E. eauto.
    + intros k. rewrite lookup_insert. case_decide as Hk; [|by auto].
      subst k. left. rewrite E. eauto.
    + intros n ->%list_elem_of_singleton. simpl. rewrite lookup_insert_eq. eauto.
  - rewrite serve_DELETE in Hs.
    destruct (notes (db w) !! id) as [s|] eqn:E; [|destruct (in_range id)];
      injection Hs as <- <-; simpl.
    3:{ repeat split; auto; try lia; try done.
        intros n Hn. by apply elem_of_nil in Hn. }
    all: repeat split; try lia; try done.
    all: try (intros k; simpl; rewrite lookup_delete;
              case_decide; [by intros [? ?]|auto]).
    all: intros n Hn; by apply elem_of_nil in Hn.
Qed.

(** A whole run from a well-formed database. *)
Lemma run_steps rs : forall w w' l,
  run w rs = (w', l) ->
  db_wf (db w) ->
  db_wf (db w') /\
  seq (db w) <= seq (db w') /\
  (forall k, is_Some (notes (db w') !! k) ->
     is_Some (notes (db w) !! k) \/ seq (db w) < k) /\
  (forall a n, a ∈ l -> n ∈ notes_of a -> Note.id n <= seq (db w')).
Proof.
  induction rs as [|[clock r] rs IH]; intros w w' l Hrun Hwf; simpl in Hrun.
  - injection Hrun as <- <-. repeat split; auto; try lia.
    intros a n Ha. by apply elem_of_nil in Ha.
  - destruct (serve clock r w) as [w1 a1] eqn:E1.
    destruct (run w1 rs) as [w2 l2] eqn:E2. injection Hrun as <- <-.
    destruct (serve_step _ _ _ _ _ E1 Hwf) as (Hwf1 & Hseq1 & Hnew1 & Hin1 & _).
    destruct (IH _ _ _ E2 Hwf1) as (Hwf2 & Hseq2 & Hnew2 & Hin2).
    split; [done|]. split; [lia|]. split.
    + intros k Hk. destruct (Hnew2 k Hk) as [Hk1|?]; [|right; lia].
      destruct (Hnew1 k Hk1); [by left|right; lia].
    + intros a n [->|Ha]%elem_of_cons Hn; [|by eauto].
      specialize (Hwf1 _ (Hin1 n Hn)). lia.
Qed.

(** * The claims *)

(** ** Update *)

(** C1: a valid update of an existing note persists and returns a row
    with the id and the [created_at] the row had before; the new row is
    the old one with [title], [content] and [updated_at] written, every
    other row and the counter are as they were. *)
Theorem update_keeps_id_and_created_at clock id b p s w :
  1 <= id ->
  NoteUpdate.validate b = Some p ->
  notes (db w) !! id = Some s ->
  exists w' n s',
    serve clock (PUT_notes_id id b) w = (w', Ok (OK n)) /\
    notes (db w') !! id = Some s' /\
    n = note_of id s' /\
    Note.id n = id /\
    Note.created_at n = s_created_at s /\
    s' = Stored (NoteUpdate.title p) (NoteUpdate.content p) (s_created_at s)
                (_utc_now_iso clock) /\
    (forall k, k <> id -> notes (db w') !! k = notes (db w) !! k) /\
    seq (db w') = seq (db w).
Proof.
  intros Hid Hp Hs. rewrite serve_PUT, Hp, Hs.
  eexists _, _, _. split; [done|]. simpl. rewrite lookup_insert_eq.
  repeat split; try done.
  intros k Hk. by rewrite lookup_insert_ne.
Qed.

(** ** List *)

Lemma Order_by_note_before r1 r2 :
  Order_by r1 r2 -> note_before (_row_to_note r1) (_row_to_note r2).
Proof.
  unfold Order_by, order_by, note_before, str_lt; simpl.
  destruct (str_compare (row_updated_at r2) (row_updated_at r1)) eqn:E; try done.
  - apply str_compare_eq in E. intros ?%Z.leb_le. by right.
  - by left.
Qed.

(** C3: in every storage state [GET /notes] answers 200 with all the
    persisted notes, each once, sorted by [updated_at] descending and,
    among equal [updated_at], by id descending; it changes nothing, and
    on the empty table the answer is the empty list. *)
Theorem list_notes_all_sorted clock w :
  exists l,
    serve clock GET_notes w =
      (World (db w) (log w ++ [SELECT_ALL_ORDERED]), Ok (NoteList l)) /\
    l ≡ₚ (fun kv => note_of kv.1 kv.2) <$> map_to_list (notes (db w)) /\
    (forall n, n ∈ l <-> exists k s, notes (db w) !! k = Some s /\ n = note_of k s) /\
    NoDup (Note.id <$> l) /\
    StronglySorted note_before l /\
    (notes (db w) = ∅ -> l = []).
Proof.
  eexists. split; [apply serve_GET_notes|].
  assert (Hperm :
    _row_to_note <$> merge_sort Order_by (to_row <$> map_to_list (notes (db w)))
    ≡ₚ (fun kv => note_of kv.1 kv.2) <$> map_to_list (notes (db w))).
  { rewrite merge_sort_Permutation, <- list_fmap_compose.
    by rewrite (list_fmap_ext (_row_to_note ∘ to_row) (fun kv => note_of kv.1 kv.2))
      by (by intros ? [k s]). }
  split; [done|]. split; [apply elem_of_select_all|]. split; [|split].
  - rewrite Hperm, <- list_fmap_compose.
    rewrite (list_fmap_ext _ fst (map_to_list (notes (db w)))) by (by intros ? [k s]).
    apply NoDup_fst_map_to_list.
  - apply (StronglySorted_fmap _ Order_by); [apply Order_by_note_before|].
    apply StronglySorted_merge_sort; apply _.
  - intros ->. by rewrite map_to_list_empty.
Qed.

(** ** Create *)

(** C2: a valid create, after any run of requests from a well-formed
    database and while rowids remain, answers 201 with a note whose
    [created_at] and [updated_at] are both the one clock reading of the
    request; its id is taken by no row before the insert and differs
    from the id of every note any earlier answer of the run carried. *)
Theorem create_equal_timestamps_fresh_id clock b p w0 rs w1 l :
  db_wf (db w0) ->
  run w0 rs = (w1, l) ->
  NoteCreate.validate b = Some p ->
  seq (db w1) < MAX_ROWID ->
  exists w2 n,
    serve clock (POST_notes b) w1 = (w2, Ok (Created n)) /\
    Note.created_at n = _utc_now_iso clock /\
    Note.updated_at n = _utc_now_iso clock /\
    Note.created_at n = Note.updated_at n /\
    notes (db w1) !! Note.id n = None /\
    notes (db w2) !! Note.id n =
      Some (Stored (NoteCreate.title p) (NoteCreate.content p)
                   (_utc_now_iso clock) (_utc_now_iso clock)) /\
    (forall a n', a ∈ l -> n' ∈ notes_of a -> Note.id n' <> Note.id n).
Proof.
  intros Hwf0 Hrun Hp Hcap.
  destruct (run_steps _ _ _ _ Hrun Hwf0) as (Hwf1 & _ & _ & Hold).
  rewrite serve_POST, Hp; simpl.
  pose proof (high_water_fresh (db w1)) as Hfresh.
  rewrite (high_water_wf _ Hwf1) in *.
  destruct (Z.ltb_spec MAX_ROWID (seq (db w1) + 1)); [lia|].
  eexists _, _. split; [done|]. simpl. rewrite lookup_insert_eq.
  repeat split; try done.
  intros a n' Ha Hn'. specialize (Hold _ _ Ha Hn'). lia.
Qed.

(** ** Update, continued *)

(** C4, as the code has it: a valid update of an existing note answers
    with the title and content of the validated payload (the title sent,
    trimmed; the content sent, or the empty string when left out) and
    with [updated_at] equal to the clock reading of the request, which
    is at or after the previous [updated_at] exactly when the clock
    reading is: when the previous value was written at instant [t0],
    exactly when the clock has not gone back behind [t0]. *)
Theorem update_returns_payload_and_clock clock id b p s w :
  1 <= id ->
  NoteUpdate.validate b = Some p ->
  notes (db w) !! id = Some s ->
  exists w' n t,
    serve clock (PUT_notes_id id b) w = (w', Ok (OK n)) /\
    Note.title n = NoteUpdate.title p /\
    Note.content n = NoteUpdate.content p /\
    body_title b = Some t /\
    Note.title n = strip t /\
    Note.content n = default [] (body_content b) /\
    Note.updated_at n = _utc_now_iso clock /\
    (str_le (s_updated_at s) (Note.updated_at n) <->
       str_le (s_updated_at s) (_utc_now_iso clock)) /\
    (forall t0,
       datetime_ok t0 -> datetime_ok clock ->
       s_updated_at s = _utc_now_iso t0 ->
       (str_le (s_updated_at s) (Note.updated_at n) <-> datetime_le t0 clock)).
Proof.
  intros Hid Hp Hs. rewrite serve_PUT, Hp, Hs.
  apply NoteUpdate_validate_Some in Hp as (t & Ht & _ & _ & _ & ->).
  eexists _, _, t. do 8 (split; [done|]).
  intros t0 Ht0 Hclock Hprior. simpl. rewrite Hprior.
  symmetry. by apply isoformat_le.
Qed.

(** C7: a valid [PUT /notes/{id}] for which no row matches sends at most
    the existence check, never an UPDATE, and leaves the database as it
    was.  For an id in the signed 64-bit range it answers 404 after the
    [SELECT 1]; for an id outside that range the binding of the id
    raises before anything is sent and the answer is a 500, not the 404
    the handler means to give.  The handler alone does the same. *)
Theorem update_missing_is_not_found clock id b p w :
  NoteUpdate.validate b = Some p ->
  notes (db w) !! id = None ->
  (in_range id = true ->
   serve clock (PUT_notes_id id b) w =
     (World (db w) (log w ++ [SELECT_1 id]), Raise NotFoundError) /\
   update_note clock p id w =
     (World (db w) (log w ++ [SELECT_1 id]), Raise NotFoundError)) /\
  (in_range id = false ->
   serve clock (PUT_notes_id id b) w =
     (World (db w) (log w), Raise InternalError) /\
   update_note clock p id w =
     (World (db w) (log w), Raise InternalError)).
Proof.
  intros Hp Hs. rewrite serve_PUT, update_note_eq, Hp, Hs. cbv zeta.
  split; intros ->; done.
Qed.

(** ** Path parameters *)

(** C5: an id that is zero or negative is not refused.  The handlers
    run on it as on any other id SQLite can bind: with no row of that
    id, [GET] sends its SELECT, a valid [PUT] its existence check and
    [DELETE] its DELETE and COMMIT, and each answers 404, never 422. *)
Theorem nonpositive_id_reaches_storage clock id b p w :
  id <= 0 ->
  MIN_ROWID <= id ->
  NoteUpdate.validate b = Some p ->
  notes (db w) !! id = None ->
  serve clock (GET_notes_id id) w =
    (World (db w) (log w ++ [SELECT_BY_ID id]), Raise NotFoundError) /\
  serve clock (PUT_notes_id id b) w =
    (World (db w) (log w ++ [SELECT_1 id]), Raise NotFoundError) /\
  (exists w',
     serve clock (DELETE_notes_id id) w = (w', Raise NotFoundError) /\
     db w' = db w /\
     log w' = log w ++ [DELETE id; COMMIT]) /\
  get_note id w =
    (World (db w) (log w ++ [SELECT_BY_ID id]), Raise NotFoundError) /\
  (delete_note id w).2 = Raise NotFoundError.
Proof.
  intros Hid Hmin Hp Hs.
  assert (Hr : in_range id = true).
  { apply in_range_spec. unfold MAX_ROWID. lia. }
  rewrite serve_GET, serve_PUT, serve_DELETE, get_note_eq, delete_note_eq,
    Hp, Hs, Hr. cbv zeta.
  split; [done|]. split; [done|]. split; [|done].
  eexists. split; [done|]. simpl. rewrite (delete_id _ _ Hs).
  by destruct w as [[] ?].
Qed.

(** ** Delete *)

(** C6: for every id in the signed 64-bit range the handler
    [delete_note] returns exactly when a row with that id was there and
    is gone, and raises 404 exactly when no row matched; [get_note] on
    the same id afterwards raises 404; [DELETE /notes/{id}] answers 204
    or 404 under the same conditions, nothing else, and the
    [GET /notes/{id}] that follows answers 404.  For an id outside that
    range, which no row has, the binding of the id raises: both routes
    answer 500 without sending anything, where the handler means to
    answer 404. *)
Theorem delete_then_get_is_not_found clock clock' id w :
  (in_range id = true ->
   (exists w' r w'',
      delete_note id w = (w', r) /\
      (r = Ok tt <->
         is_Some (notes (db w) !! id) /\ notes (db w') !! id = None) /\
      (r = Raise NotFoundError <-> notes (db w) !! id = None) /\
      get_note id w' = (w'', Raise NotFoundError)) /\
   (exists w' a w'',
      serve clock (DELETE_notes_id id) w = (w', a) /\
      (a = Ok NoContent <->
         is_Some (notes (db w) !! id) /\ notes (db w') !! id = None) /\
      (a = Raise NotFoundError <-> notes (db w) !! id = None) /\
      (a = Ok NoContent \/ a = Raise NotFoundError) /\
      notes (db w') = delete id (notes (db w)) /\
      serve clock' (GET_notes_id id) w' = (w'', Raise NotFoundError))) /\
  (in_range id = false ->
   notes (db w) !! id = None ->
   serve clock (DELETE_notes_id id) w =
     (World (db w) (log w), Raise InternalError) /\
   serve clock' (GET_notes_id id) (serve clock (DELETE_notes_id id) w).1 =
     (World (db w) (log w), Raise InternalError) /\
   delete_note id w = (World (db w) (log w), Raise InternalError) /\
   get_note id (delete_note id w).1 =
     (World (db w) (log w), Raise InternalError)).
Proof.
  split.
  - intros Hr. split.
    + rewrite delete_note_eq.
      destruct (notes (db w) !! id) as [s|] eqn:E; rewrite ?Hr.
      * eexists _, _, _. split; [done|]. rewrite get_note_eq. simpl.
        rewrite lookup_delete_eq, Hr. repeat split; try done; eauto.
      * eexists _, _, _. split; [done|]. rewrite get_note_eq. simpl.
        rewrite lookup_delete_eq, Hr. repeat split; try done; eauto.
        by intros [[? ?] _].
    + rewrite serve_DELETE.
      destruct (notes (db w) !! id) as [s|] eqn:E; rewrite ?Hr.
      * eexists _, _, _. split; [done|]. rewrite serve_GET. simpl.
        rewrite lookup_delete_eq, Hr. repeat split; try done; eauto.
      * eexists _, _, _. split; [done|]. rewrite serve_GET. simpl.
        rewrite lookup_delete_eq, Hr. repeat split; try done; eauto.
        by intros [[? ?] _].
  - intros Hr Hs. rewrite delete_note_eq, serve_DELETE, Hs, Hr. cbn [fst].
    rewrite serve_GET, get_note_eq. cbn [db log]. by rewrite Hs, Hr.
Qed.

(** ** Titles *)

(** C8: a create or update whose title is made of whitespace only is
    refused by both models, the route answers 422, and the world is as
    it was: no note is created or modified. *)
Theorem blank_title_is_rejected clock id t c w :
  forallb is_space t = true ->
  NoteCreate.validate (Body (Some t) c) = None /\
  NoteUpdate.validate (Body (Some t) c) = None /\
  serve clock (POST_notes (Body (Some t) c)) w = (w, Raise ValidationError) /\
  serve clock (PUT_notes_id id (Body (Some t) c)) w = (w, Raise ValidationError).
Proof.
  intros Ht. apply strip_all_space in Ht.
  assert (Hc : NoteCreate.validate (Body (Some t) c) = None).
  { unfold NoteCreate.validate, NoteCreate._title_non_empty; simpl.
    rewrite Ht. by destruct (_ && _). }
  assert (Hu : NoteUpdate.validate (Body (Some t) c) = None).
  { unfold NoteUpdate.validate, NoteUpdate._title_non_empty; simpl.
    rewrite Ht. by destruct (_ && _). }
  by rewrite serve_POST, serve_PUT, Hc, Hu.
Qed.

(** C10: the 200-character bound is on the title as sent: a title
    longer than that is answered 422 by create and update whatever its
    trimmed length; and for a title that passes, the note answered and
    the row persisted carry the trimmed title. *)
Theorem title_bound_is_on_raw_and_strip_is_stored clock id long t c s w :
  200 < len long ->
  1 <= len t <= 200 ->
  strip t <> [] ->
  len (default [] c) <= 10000 ->
  1 <= id ->
  notes (db w) !! id = Some s ->
  high_water (db w) < MAX_ROWID ->
  (serve clock (POST_notes (Body (Some long) c)) w = (w, Raise ValidationError) /\
   serve clock (PUT_notes_id id (Body (Some long) c)) w = (w, Raise ValidationError)) /\
  (exists w' n,
     serve clock (POST_notes (Body (Some t) c)) w = (w', Ok (Created n)) /\
     Note.title n = strip t /\
     s_title <$> notes (db w') !! Note.id n = Some (strip t)) /\
  (exists w' n,
     serve clock (PUT_notes_id id (Body (Some t) c)) w = (w', Ok (OK n)) /\
     Note.title n = strip t /\
     s_title <$> notes (db w') !! id = Some (strip t)).
Proof.
  intros Hlong Ht Hne Hc Hid Hs Hcap.
  assert (Hvc : NoteCreate.validate (Body (Some t) c) =
                Some (NoteCreate.Make (strip t) (default [] c))).
  { apply NoteCreate_validate_Some. exists t. simpl. tauto. }
  assert (Hvu : NoteUpdate.validate (Body (Some t) c) =
                Some (NoteUpdate.Make (strip t) (default [] c))).
  { apply NoteUpdate_validate_Some. exists t. simpl. tauto. }
  assert (Hlc : NoteCreate.validate (Body (Some long) c) = None).
  { unfold NoteCreate.validate; simpl.
    destruct (Z.leb_spec (len long) 200); [lia|]. by rewrite andb_false_r. }
  assert (Hlu : NoteUpdate.validate (Body (Some long) c) = None).
  { unfold NoteUpdate.validate; simpl.
    destruct (Z.leb_spec (len long) 200); [lia|]. by rewrite andb_false_r. }
  rewrite !serve_POST, !serve_PUT, Hvc, Hvu, Hlc, Hlu, Hs. cbv zeta.
  destruct (Z.ltb_spec MAX_ROWID (high_water (db w) + 1)); [lia|].
  split; [done|]. split.
  - eexists _, _. split; [done|]. simpl. by rewrite lookup_insert_eq.
  - eexists _, _. split; [done|]. simpl. by rewrite lookup_insert_eq.
Qed.

(** ** The data-model invariant *)

(** C4, as the specification states it, fails when the clock reading of
    the update is earlier than the stored [updated_at]: the note
    created on 2 January and updated with a clock that reads 1 January
    comes back with [updated_at] on 1 January. *)
Lemma update_can_lower_updated_at :
  notes (db one_note) !! 1 = Some (Stored (py "A") [] jan_2 jan_2) /\
  NoteUpdate.validate body_B = Some (NoteUpdate.Make (py "B") (py "x")) /\
  (serve clock_jan_1 (PUT_notes_id 1 body_B) one_note).2 =
    Ok (OK (Note.Make 1 (py "B") (py "x") jan_2 jan_1)) /\
  str_lt jan_1 jan_2 /\
  ~ str_le jan_2 jan_1 /\
  ~ (forall clock id b p s w w' n,
       1 <= id ->
       NoteUpdate.validate b = Some p ->
       notes (db w) !! id = Some s ->
       serve clock (PUT_notes_id id b) w = (w', Ok (OK n)) ->
       Note.title n = NoteUpdate.title p /\
       Note.content n = NoteUpdate.content p /\
       str_le (s_updated_at s) (Note.updated_at n)).
Proof.
  assert (Hlt : ~ str_le jan_2 jan_1) by (apply str_lt_not_le; by vm_compute).
  split; [by vm_compute|]. split; [by vm_compute|]. split; [by vm_compute|].
  split; [by vm_compute|]. split; [done|].
  intros H. apply Hlt.
  refine (proj2 (proj2 (H clock_jan_1 1 body_B (NoteUpdate.Make (py "B") (py "x"))
    (Stored (py "A") [] jan_2 jan_2) one_note
    (serve clock_jan_1 (PUT_notes_id 1 body_B) one_note).1
    (Note.Make 1 (py "B") (py "x") jan_2 jan_1) _ _ _ _))).
  - lia.
  - by vm_compute.
  - by vm_compute.
  - by vm_compute.
Qed.

(** C9, as the specification states it, fails in the same situation:
    from the new database, a create on 2 January and an update of that
    note with a clock that reads 1 January leave a persisted row whose
    [created_at] is after its [updated_at]. *)
Lemma update_can_break_created_le_updated :
  db_wf (db one_note) /\
  map_Forall (fun _ s => row_ok s) (notes (db one_note)) /\
  notes (db (serve clock_jan_1 (PUT_notes_id 1 body_B) one_note).1) !! 1 =
    Some (Stored (py "B") (py "x") jan_2 jan_1) /\
  ~ row_ok (Stored (py "B") (py "x") jan_2 jan_1) /\
  ~ str_le jan_2 jan_1 /\
  ~ (forall clock r w,
       db_wf (db w) ->
       map_Forall (fun _ s => row_ok s) (notes (db w)) ->
       map_Forall (fun _ s => row_ok s) (notes (db (serve clock r w).1))).
Proof.
  assert (Hlt : ~ str_le jan_2 jan_1) by (apply str_lt_not_le; by vm_compute).
  assert (Hwf : db_wf (db one_note)) by (apply (bool_decide_unpack _); by vm_compute).
  assert (Hok : map_Forall (fun _ s => row_ok s) (notes (db one_note)))
    by (apply (bool_decide_unpack _); by vm_compute).
  assert (Hrow : notes (db (serve clock_jan_1 (PUT_notes_id 1 body_B) one_note).1) !! 1 =
                 Some (Stored (py "B") (py "x") jan_2 jan_1)) by (by vm_compute).
  split; [done|]. split; [done|]. split; [done|].
  split; [by intros [_ Hle]|]. split; [done|].
  intros H.
  destruct (H clock_jan_1 (PUT_notes_id 1 body_B) one_note Hwf Hok _ _ Hrow) as [_ Hle].
  by apply Hlt.
Qed.

(** What a request can do to the database: nothing, insert the row of
    a create under the next key, overwrite the row of an update, or
    delete the row of a delete. *)
Lemma serve_db_cases clock r w w' a :
  serve clock r w = (w', a) ->
  db w' = db w \/
  (exists b p,
     r = POST_notes b /\ NoteCreate.validate b = Some p /\
     db w' =
       Database
         (<[high_water (db w) + 1 :=
              Stored (NoteCreate.title p) (NoteCreate.content p)
                     (_utc_now_iso clock) (_utc_now_iso clock)]> (notes (db w)))
         (high_water (db w) + 1)) \/
  (exists id b p s,
     r = PUT_notes_id id b /\ NoteUpdate.validate b = Some p /\
     notes (db w) !! id = Some s /\
     db w' =
       Database
         (<[id := Stored (NoteUpdate.title p) (NoteUpdate.content p)
                         (s_created_at s) (_utc_now_iso clock)]> (notes (db w)))
         (seq (db w))) \/
  (exists id,
     r = DELETE_notes_id id /\
     db w' = Database (delete id (notes (db w))) (seq (db w))).
Proof.
  intros Hs. destruct r as [| |b|id|id b|id].
  - left. by injection Hs as <- <-.
  - left. rewrite serve_GET_notes in Hs. by injection Hs as <- <-.
  - rewrite serve_POST in Hs. destruct (NoteCreate.validate b) as [p|] eqn:Hp.
    2:{ left. by injection Hs as <- <-. }
    cbv zeta in Hs. destruct (MAX_ROWID <? _); injection Hs as <- <-.
    + by left.
    + right. left. by exists b, p.
  - left. rewrite serve_GET in Hs.
    by destruct (notes (db w) !! id); [|destruct (in_range id)];
      injection Hs as <- <-.
  - rewrite serve_PUT in Hs. cbv zeta in Hs.
    destruct (NoteUpdate.validate b) as [p|] eqn:Hp.
    2:{ left. by injection Hs as <- <-. }
    destruct (notes (db w) !! id) as [s|] eqn:E; [|destruct (in_range id)];
      injection Hs as <- <-.
    + right. right. left. by exists id, b, p, s.
    + by left.
    + by left.
  - rewrite serve_DELETE in Hs.
    destruct (notes (db w) !! id) as [s|] eqn:E; [|destruct (in_range id)];
      injection Hs as <- <-.
    + right. right. right. by exists id.
    + right. right. right. by exists id.
    + by left.
Qed.

Lemma serve_created_by clock r w w' a now' :
  serve clock r w = (w', a) ->
  created_by (db w) now' ->
  str_le (_utc_now_iso clock) now' ->
  created_by (db w') now'.
Proof.
  unfold created_by. intros Hs Hold Hle.
  destruct (serve_db_cases _ _ _ _ _ Hs)
    as [->|[(b & p & -> & Hp & ->)|[(id & b & p & s & -> & Hp & E & ->)
       |(id & -> & ->)]]]; simpl; [done| | |].
  - by apply map_Forall_insert_2.
  - apply map_Forall_insert_2; [|done]. apply (Hold _ _ E).
  - by apply map_Forall_delete.
Qed.

Lemma serve_row_ok clock r w w' a :
  serve clock r w = (w', a) ->
  map_Forall (fun _ s => row_ok s) (notes (db w)) ->
  created_by (db w) (_utc_now_iso clock) ->
  map_Forall (fun _ s => row_ok s) (notes (db w')).
Proof.
  intros Hs Hold Hnow.
  destruct (serve_db_cases _ _ _ _ _ Hs)
    as [->|[(b & p & -> & Hp & ->)|[(id & b & p & s & -> & Hp & E & ->)
       |(id & -> & ->)]]]; simpl; [done| | |].
  - apply map_Forall_insert_2; [|done].
    apply NoteCreate_validate_Some in Hp as (t & _ & _ & Hne & _ & ->).
    split; simpl; [by apply title_ok_strip|apply str_le_refl].
  - apply map_Forall_insert_2; [|done].
    apply NoteUpdate_validate_Some in Hp as (t & _ & _ & Hne & _ & ->).
    split; simpl; [by apply title_ok_strip|apply (Hnow _ _ E)].
  - by apply map_Forall_delete.
Qed.

(** C9, as the code has it, one operation at a time.  Whatever the
    request and the clock:
    - if every persisted title was trimmed, not empty and not
      whitespace only, every persisted title still is;
    - if every persisted row had [created_at <= updated_at], every row
      still has, provided that, when the request is an update of a row
      that exists, the clock does not read earlier than the
      [created_at] of that row; nothing is asked of a create, a delete
      or a read;
    - every persisted row is read back by [GET /notes/{id}] as a note
      with its five fields, the id being the key of the row (the
      columns are [NOT NULL] and the handlers bind [str] values only:
      a row without a value is not representable);
    - no id is handed out twice: with the counter at or above every
      key, as AUTOINCREMENT keeps it, it still is afterwards and has
      not gone back, an id at or below it that has no row gets none,
      and the note a create answers with has an id above it. *)
Theorem operations_preserve_row_invariant clock r w w' a :
  serve clock r w = (w', a) ->
  (map_Forall (fun _ s => title_ok (s_title s)) (notes (db w)) ->
   map_Forall (fun _ s => title_ok (s_title s)) (notes (db w'))) /\
  (map_Forall (fun _ s => str_le (s_created_at s) (s_updated_at s))
              (notes (db w)) ->
   (forall id b s,
      r = PUT_notes_id id b -> notes (db w) !! id = Some s ->
      str_le (s_created_at s) (_utc_now_iso clock)) ->
   map_Forall (fun _ s => str_le (s_created_at s) (s_updated_at s))
              (notes (db w'))) /\
  (forall k s clock',
     notes (db w') !! k = Some s ->
     (serve clock' (GET_notes_id k) w').2 =
       Ok (OK (Note.Make k (s_title s) (s_content s)
                         (s_created_at s) (s_updated_at s)))) /\
  (db_wf (db w) ->
   db_wf (db w') /\
   seq (db w) <= seq (db w') /\
   (forall k, k <= seq (db w) -> notes (db w) !! k = None ->
      notes (db w') !! k = None) /\
   (forall n, a = Ok (Created n) ->
      seq (db w) < Note.id n /\ Note.id n <= seq (db w'))).
Proof.
  intros Hs. split; [|split; [|split]].
  - intros Hold.
    destruct (serve_db_cases _ _ _ _ _ Hs)
      as [->|[(b & p & -> & Hp & ->)|[(id & b & p & s & -> & Hp & E & ->)
         |(id & -> & ->)]]]; simpl; [done| | |].
    + apply map_Forall_insert_2; [|done].
      apply NoteCreate_validate_Some in Hp as (t & _ & _ & Hne & _ & ->).
      by apply title_ok_strip.
    + apply map_Forall_insert_2; [|done].
      apply NoteUpdate_validate_Some in Hp as (t & _ & _ & Hne & _ & ->).
      by apply title_ok_strip.
    + by apply map_Forall_delete.
  - intros Hold Hclock.
    destruct (serve_db_cases _ _ _ _ _ Hs)
      as [->|[(b & p & -> & Hp & ->)|[(id & b & p & s & -> & Hp & E & ->)
         |(id & -> & ->)]]]; simpl; [done| | |].
    + apply map_Forall_insert_2; [|done]. apply str_le_refl.
    + apply map_Forall_insert_2; [|done]. simpl. by apply (Hclock id b s).
    + by apply map_Forall_delete.
  - intros k s clock' Hk. by rewrite serve_GET, Hk.
  - intros Hwf.
    destruct (serve_step _ _ _ _ _ Hs Hwf) as (Hwf' & Hseq & Hnew & _ & Hid).
    split; [done|]. split; [done|]. split.
    + intros k Hk Hnone.
      destruct (notes (db w') !! k) as [s|] eqn:E; [|done].
      destruct (Hnew k) as [[? ?]|?]; [by rewrite E|congruence|lia].
    + intros n ->. specialize (Hid n eq_refl).
      assert (Hin : is_Some (notes (db w') !! Note.id n)).
      { destruct (serve_step _ _ _ _ _ Hs Hwf) as (_ & _ & _ & Hans & _).
        apply Hans. simpl. by apply list_elem_of_singleton. }
      split; [lia|]. by apply Hwf'.
Qed.

(** X20: over any run of requests whose clock
    readings never go back and are not before the [created_at] of a row
    already stored, every persisted row keeps a trimmed title that is
    neither empty nor whitespace and [created_at <= updated_at]; the
    counter never goes back, an id at or below it that has no row gets
    none, and every note a create answers with has an id above it. *)
Theorem runs_preserve_row_invariant rs : forall w w' l,
  run w rs = (w', l) ->
  db_wf (db w) ->
  map_Forall (fun _ s => row_ok s) (notes (db w)) ->
  Forall datetime_ok rs.*1 ->
  StronglySorted datetime_le rs.*1 ->
  Forall (fun clock => created_by (db w) (_utc_now_iso clock)) rs.*1 ->
  db_wf (db w') /\
  map_Forall (fun _ s => row_ok s) (notes (db w')) /\
  seq (db w) <= seq (db w') /\
  (forall k, k <= seq (db w) -> notes (db w) !! k = None ->
     notes (db w') !! k = None) /\
  (forall n, Ok (Created n) ∈ l -> seq (db w) < Note.id n).
Proof.
  induction rs as [|[clock r] rs IH];
    intros w w' l Hrun Hwf Hok Hvalid Hsorted Hclock; simpl in Hrun.
  - injection Hrun as <- <-.
    split; [done|]. split; [done|]. split; [lia|]. split; [done|].
    intros n Hn. by apply elem_of_nil in Hn.
  - destruct (serve clock r w) as [w1 a1] eqn:E1.
    destruct (run w1 rs) as [w2 l2] eqn:E2. injection Hrun as <- <-.
    apply StronglySorted_inv in Hsorted as [Hsorted Hlater].
    apply Forall_cons in Hvalid as [Hclock_ok Hvalid].
    apply Forall_cons in Hclock as [Hnow Hclock]. simpl in *.
    destruct (serve_step _ _ _ _ _ E1 Hwf) as (Hwf1 & Hseq1 & Hnew1 & _ & Hid1).
    assert (Hok1 := serve_row_ok _ _ _ _ _ E1 Hok Hnow).
    assert (Hclock1 :
      Forall (fun clock' => created_by (db w1) (_utc_now_iso clock')) rs.*1).
    { apply Forall_forall. intros clock' Hclock'.
      apply (serve_created_by _ _ _ _ _ _ E1).
      - by apply (proj1 (Forall_forall _ _) Hclock).
      - apply isoformat_le; [done| |].
        + by apply (proj1 (Forall_forall _ _) Hvalid).
        + by apply (proj1 (Forall_forall _ _) Hlater). }
    destruct (IH _ _ _ E2 Hwf1 Hok1 Hvalid Hsorted Hclock1)
      as (Hwf2 & Hok2 & Hseq2 & Hgone2 & Hid2).
    split; [done|]. split; [done|]. split; [lia|]. split.
    + intros k Hk Hnone. apply Hgone2; [lia|].
      destruct (notes (db w1) !! k) as [s|] eqn:E; [|done].
      destruct (Hnew1 k) as [[? ?]|?]; [by rewrite E|congruence|lia].
    + intros n [Hn|Hn]%elem_of_cons.
      * rewrite (Hid1 n); [lia|done].
      * specialize (Hid2 n Hn). lia.
Qed.

(** * The theorems at concrete requests *)

(** The scenario of the specification: create, update, a miss, delete,
    and a miss on the deleted note. *)
Example scenario :
  (run fresh [(clock_jan_1, POST_notes (Body (Some (py "A")) (Some [])));
              (clock_jan_2, PUT_notes_id 1 body_B);
              (clock_jan_2, GET_notes_id 999);
              (clock_jan_2, DELETE_notes_id 1);
              (clock_jan_2, GET_notes_id 1)]).2 =
    [Ok (Created (Note.Make 1 (py "A") [] jan_1 jan_1));
     Ok (OK (Note.Make 1 (py "B") (py "x") jan_1 jan_2));
     Raise NotFoundError;
     Ok NoContent;
     Raise NotFoundError].
Proof. vm_compute. reflexivity. Qed.

Example jan_2_text : jan_2 = py "2024-01-02T00:00:00+00:00".
Proof. vm_compute. reflexivity. Qed.

Example isoformat_microseconds :
  _utc_now_iso (Datetime 2024 11 22 13 4 5 123) =
    py "2024-11-22T13:04:05.000123+00:00".
Proof. vm_compute. reflexivity. Qed.

Lemma update_keeps_id_and_created_at_witness :
  exists w' n s',
    serve clock_jan_2 (PUT_notes_id 1 body_B) one_note = (w', Ok (OK n)) /\
    notes (db w') !! 1 = Some s' /\
    n = note_of 1 s' /\
    Note.id n = 1 /\
    Note.created_at n = jan_2 /\
    s' = Stored (py "B") (py "x") jan_2 jan_2 /\
    (forall k, k <> 1 -> notes (db w') !! k = notes (db one_note) !! k) /\
    seq (db w') = seq (db one_note).
Proof.
  apply (update_keeps_id_and_created_at clock_jan_2 1 body_B
           (NoteUpdate.Make (py "B") (py "x"))
           (Stored (py "A") [] jan_2 jan_2) one_note).
  - lia.
  - vm_compute. reflexivity.
  - vm_compute. reflexivity.
Defined.

Lemma create_equal_timestamps_fresh_id_witness :
  exists w2 n,
    serve clock_jan_2 (POST_notes body_B) one_note = (w2, Ok (Created n)) /\
    Note.created_at n = jan_2 /\
    Note.updated_at n = jan_2 /\
    Note.created_at n = Note.updated_at n /\
    notes (db one_note) !! Note.id n = None /\
    notes (db w2) !! Note.id n = Some (Stored (py "B") (py "x") jan_2 jan_2) /\
    (forall a n',
       a ∈ (run fresh [(clock_jan_2, POST_notes body_A)]).2 ->
       n' ∈ notes_of a -> Note.id n' <> Note.id n).
Proof.
  apply (create_equal_timestamps_fresh_id clock_jan_2 body_B
           (NoteCreate.Make (py "B") (py "x"))
           fresh [(clock_jan_2, POST_notes body_A)] one_note).
  - apply (bool_decide_unpack _). vm_compute. exact I.
  - vm_compute. reflexivity.
  - vm_compute. reflexivity.
  - vm_compute. reflexivity.
Defined.

Lemma update_returns_payload_and_clock_witness :
  exists w' n t,
    serve clock_jan_1 (PUT_notes_id 1 body_B) one_note = (w', Ok (OK n)) /\
    Note.title n = py "B" /\
    Note.content n = py "x" /\
    body_title body_B = Some t /\
    Note.title n = strip t /\
    Note.content n = default [] (body_content body_B) /\
    Note.updated_at n = jan_1 /\
    (str_le jan_2 (Note.updated_at n) <-> str_le jan_2 jan_1) /\
    (forall t0,
       datetime_ok t0 -> datetime_ok clock_jan_1 ->
       jan_2 = _utc_now_iso t0 ->
       (str_le jan_2 (Note.updated_at n) <-> datetime_le t0 clock_jan_1)).
Proof.
  apply (update_returns_payload_and_clock clock_jan_1 1 body_B
           (NoteUpdate.Make (py "B") (py "x"))
           (Stored (py "A") [] jan_2 jan_2) one_note).
  - lia.
  - vm_compute. reflexivity.
  - vm_compute. reflexivity.
Defined.

Lemma update_missing_is_not_found_witness :
  (serve clock_jan_2 (PUT_notes_id 999 body_B) one_note =
     (World (db one_note) (log one_note ++ [SELECT_1 999]), Raise NotFoundError) /\
   update_note clock_jan_2 (NoteUpdate.Make (py "B") (py "x")) 999 one_note =
     (World (db one_note) (log one_note ++ [SELECT_1 999]), Raise NotFoundError)) /\
  (serve clock_jan_2 (PUT_notes_id huge_id body_B) one_note =
     (World (db one_note) (log one_note), Raise InternalError) /\
   update_note clock_jan_2 (NoteUpdate.Make (py "B") (py "x")) huge_id one_note =
     (World (db one_note) (log one_note), Raise InternalError)).
Proof.
  split.
  - apply (update_missing_is_not_found clock_jan_2 999 body_B
             (NoteUpdate.Make (py "B") (py "x")) one_note).
    + vm_compute. reflexivity.
    + vm_compute. reflexivity.
    + vm_compute. reflexivity.
  - apply (update_missing_is_not_found clock_jan_2 huge_id body_B
             (NoteUpdate.Make (py "B") (py "x")) one_note).
    + vm_compute. reflexivity.
    + vm_compute. reflexivity.
    + vm_compute. reflexivity.
Defined.

Lemma nonpositive_id_reaches_storage_witness :
  (serve clock_jan_2 (GET_notes_id 0) one_note =
     (World (db one_note) (log one_note ++ [SELECT_BY_ID 0]), Raise NotFoundError) /\
   serve clock_jan_2 (PUT_notes_id 0 body_B) one_note =
     (World (db one_note) (log one_note ++ [SELECT_1 0]), Raise NotFoundError) /\
   (exists w',
      serve clock_jan_2 (DELETE_notes_id 0) one_note = (w', Raise NotFoundError) /\
      db w' = db one_note /\
      log w' = log one_note ++ [DELETE 0; COMMIT]) /\
   get_note 0 one_note =
     (World (db one_note) (log one_note ++ [SELECT_BY_ID 0]), Raise NotFoundError) /\
   (delete_note 0 one_note).2 = Raise NotFoundError) /\
  (serve clock_jan_2 (GET_notes_id (-5)) one_note =
     (World (db one_note) (log one_note ++ [SELECT_BY_ID (-5)]),
      Raise NotFoundError) /\
   serve clock_jan_2 (PUT_notes_id (-5) body_B) one_note =
     (World (db one_note) (log one_note ++ [SELECT_1 (-5)]), Raise NotFoundError) /\
   (exists w',
      serve clock_jan_2 (DELETE_notes_id (-5)) one_note =
        (w', Raise NotFoundError) /\
      db w' = db one_note /\
      log w' = log one_note ++ [DELETE (-5); COMMIT]) /\
   get_note (-5) one_note =
     (World (db one_note) (log one_note ++ [SELECT_BY_ID (-5)]),
      Raise NotFoundError) /\
   (delete_note (-5) one_note).2 = Raise NotFoundError).
Proof.
  split.
  - apply (nonpositive_id_reaches_storage clock_jan_2 0 body_B
             (NoteUpdate.Make (py "B") (py "x")) one_note).
    + lia.
    + vm_compute. discriminate.
    + vm_compute. reflexivity.
    + vm_compute. reflexivity.
  - apply (nonpositive_id_reaches_storage clock_jan_2 (-5) body_B
             (NoteUpdate.Make (py "B") (py "x")) one_note).
    + lia.
    + vm_compute. discriminate.
    + vm_compute. reflexivity.
    + vm_compute. reflexivity.
Defined.

Lemma delete_then_get_is_not_found_witness :
  ((exists w' r w'',
      delete_note 1 one_note = (w', r) /\
      (r = Ok tt <->
         is_Some (notes (db one_note) !! 1) /\ notes (db w') !! 1 = None) /\
      (r = Raise NotFoundError <-> notes (db one_note) !! 1 = None) /\
      get_note 1 w' = (w'', Raise NotFoundError)) /\
   (exists w' a w'',
      serve clock_jan_2 (DELETE_notes_id 1) one_note = (w', a) /\
      (a = Ok NoContent <->
         is_Some (notes (db one_note) !! 1) /\ notes (db w') !! 1 = None) /\
      (a = Raise NotFoundError <-> notes (db one_note) !! 1 = None) /\
      (a = Ok NoContent \/ a = Raise NotFoundError) /\
      notes (db w') = delete 1 (notes (db one_note)) /\
      serve clock_jan_2 (GET_notes_id 1) w' = (w'', Raise NotFoundError))) /\
  (serve clock_jan_2 (DELETE_notes_id huge_id) one_note =
     (World (db one_note) (log one_note), Raise InternalError) /\
   serve clock_jan_2 (GET_notes_id huge_id)
       (serve clock_jan_2 (DELETE_notes_id huge_id) one_note).1 =
     (World (db one_note) (log one_note), Raise InternalError) /\
   delete_note huge_id one_note =
     (World (db one_note) (log one_note), Raise InternalError) /\
   get_note huge_id (delete_note huge_id one_note).1 =
     (World (db one_note) (log one_note), Raise InternalError)).
Proof.
  split.
  - apply (delete_then_get_is_not_found clock_jan_2 clock_jan_2 1 one_note).
    vm_compute. reflexivity.
  - apply (delete_then_get_is_not_found clock_jan_2 clock_jan_2 huge_id one_note).
    + vm_compute. reflexivity.
    + vm_compute. reflexivity.
Defined.

Lemma blank_title_is_rejected_witness :
  NoteCreate.validate (Body (Some (py "   ")) None) = None /\
  NoteUpdate.validate (Body (Some (py "   ")) None) = None /\
  serve clock_jan_2 (POST_notes (Body (Some (py "   ")) None)) one_note =
    (one_note, Raise ValidationError) /\
  serve clock_jan_2 (PUT_notes_id 1 (Body (Some (py "   ")) None)) one_note =
    (one_note, Raise ValidationError).
Proof.
  apply (blank_title_is_rejected clock_jan_2 1 (py "   ") None one_note).
  vm_compute. reflexivity.
Defined.

Lemma title_bound_is_on_raw_and_strip_is_stored_witness :
  len long_title = 201 /\
  len (strip long_title) = 1 /\
  strip (py " A ") = py "A" /\
  (serve clock_jan_2 (POST_notes (Body (Some long_title) None)) one_note =
     (one_note, Raise ValidationError) /\
   serve clock_jan_2 (PUT_notes_id 1 (Body (Some long_title) None)) one_note =
     (one_note, Raise ValidationError)) /\
  (exists w' n,
     serve clock_jan_2 (POST_notes (Body (Some (py " A ")) None)) one_note =
       (w', Ok (Created n)) /\
     Note.title n = strip (py " A ") /\
     s_title <$> notes (db w') !! Note.id n = Some (strip (py " A "))) /\
  (exists w' n,
     serve clock_jan_2 (PUT_notes_id 1 (Body (Some (py " A ")) None)) one_note =
       (w', Ok (OK n)) /\
     Note.title n = strip (py " A ") /\
     s_title <$> notes (db w') !! 1 = Some (strip (py " A "))).
Proof.
  split; [vm_compute; reflexivity|].
  split; [vm_compute; reflexivity|].
  split; [vm_compute; reflexivity|].
  apply (title_bound_is_on_raw_and_strip_is_stored clock_jan_2 1 long_title (py " A ")
           None (Stored (py "A") [] jan_2 jan_2) one_note).
  - vm_compute. reflexivity.
  - vm_compute. split; discriminate.
  - vm_compute. discriminate.
  - vm_compute. discriminate.
  - lia.
  - vm_compute. reflexivity.
  - vm_compute. reflexivity.
Defined.

Lemma operations_preserve_row_invariant_witness :
  map_Forall (fun _ s => title_ok (s_title s))
    (notes (db (serve clock_jan_3 (PUT_notes_id 1 body_B) three_notes).1)) /\
  map_Forall (fun _ s => str_le (s_created_at s) (s_updated_at s))
    (notes (db (serve clock_jan_3 (PUT_notes_id 1 body_B) three_notes).1)) /\
  (serve clock_jan_1 (GET_notes_id 1)
     (serve clock_jan_3 (PUT_notes_id 1 body_B) three_notes).1).2 =
    Ok (OK (Note.Make 1 (py "B") (py "x") jan_1 jan_3)) /\
  db_wf (db (serve clock_jan_3 (PUT_notes_id 1 body_B) three_notes).1) /\
  notes (db (serve clock_jan_3 (PUT_notes_id 1 body_B) three_notes).1) !! 0 = None.
Proof.
  destruct (operations_preserve_row_invariant
              clock_jan_3 (PUT_notes_id 1 body_B) three_notes
              (serve clock_jan_3 (PUT_notes_id 1 body_B) three_notes).1
              (serve clock_jan_3 (PUT_notes_id 1 body_B) three_notes).2)
    as (Htitle & Horder & Hread & Hids).
  { vm_compute. reflexivity. }
  split; [|split; [|split]].
  - apply Htitle. apply (bool_decide_unpack _). vm_compute. exact I.
  - apply Horder.
    + apply (bool_decide_unpack _). vm_compute. exact I.
    + intros id b s [= <- <-] Hs. vm_compute in Hs. injection Hs as <-.
      vm_compute. reflexivity.
  - apply (Hread 1 (Stored (py "B") (py "x") jan_1 jan_3) clock_jan_1).
    vm_compute. reflexivity.
  - destruct Hids as (Hwf & _ & Hgone & _).
    { apply (bool_decide_unpack _). vm_compute. exact I. }
    split; [done|]. apply Hgone; vm_compute; [discriminate|reflexivity].
Defined.

Lemma runs_preserve_row_invariant_witness :
  db_wf (db (run fresh create_then_update).1) /\
  map_Forall (fun _ s => row_ok s) (notes (db (run fresh create_then_update).1)) /\
  seq (db fresh) <= seq (db (run fresh create_then_update).1) /\
  (forall k, k <= seq (db fresh) -> notes (db fresh) !! k = None ->
     notes (db (run fresh create_then_update).1) !! k = None) /\
  (forall n, Ok (Created n) ∈ (run fresh create_then_update).2 ->
     seq (db fresh) < Note.id n).
Proof.
  apply (runs_preserve_row_invariant create_then_update fresh).
  - vm_compute. reflexivity.
  - apply (bool_decide_unpack _). vm_compute. exact I.
  - apply (bool_decide_unpack _). vm_compute. exact I.
  - apply (bool_decide_unpack _). vm_compute. exact I.
  - apply (bool_decide_unpack _). vm_compute. exact I.
  - apply (bool_decide_unpack _). vm_compute. exact I.
Defined.

(** * Further properties of the handlers *)

(** ** Errors and reads *)

(** X1: a request that is answered with an error leaves the database as it
    was, whatever the error; when the error is the 422 of validation
    nothing at all was sent to storage. *)
Theorem failed_request_changes_nothing clock r w w' e :
  serve clock r w = (w', Raise e) ->
  db w' = db w /\
  (e = ValidationError -> w' = w).
Proof.
  intros Hs. destruct r as [| |b|id|id b|id].
  - by injection Hs.
  - rewrite serve_GET_notes in Hs. by injection Hs.
  - rewrite serve_POST in Hs. destruct (NoteCreate.validate b) as [p|].
    2:{ by injection Hs as <- <-. }
    cbv zeta in Hs. destruct (MAX_ROWID <? _); [|by injection Hs].
    by injection Hs as <- <-.
  - rewrite serve_GET in Hs.
    destruct (notes (db w) !! id); [by injection Hs|].
    by destruct (in_range id); injection Hs as <- <-.
  - rewrite serve_PUT in Hs. cbv zeta in Hs.
    destruct (NoteUpdate.validate b) as [p|].
    2:{ by injection Hs as <- <-. }
    destruct (notes (db w) !! id); [by injection Hs|].
    by destruct (in_range id); injection Hs as <- <-.
  - rewrite serve_DELETE in Hs.
    destruct (notes (db w) !! id) as [s|] eqn:E; [by injection Hs|].
    destruct (in_range id); injection Hs as <- <-; [|done]. simpl.
    rewrite (delete_id _ _ E). split; [by destruct w as [[] ?]|done].
Qed.

(** X2: the three reading routes leave the database as it was, send
    SELECT statements only, answer the same whatever the clock reads,
    and answer the same again when asked a second time. *)
Theorem reads_are_safe_and_repeatable clock clock' r w w' a :
  is_read r = true ->
  serve clock r w = (w', a) ->
  db w' = db w /\
  (exists sel, log w' = log w ++ sel /\ forallb is_select sel = true) /\
  (serve clock' r w).2 = a /\
  (serve clock' r w').2 = a.
Proof.
  intros Hr Hs. destruct r as [| |b|id|id b|id]; try done.
  - injection Hs as <- <-. repeat split; try done. exists []. by rewrite app_nil_r.
  - rewrite serve_GET_notes in Hs. injection Hs as <- <-.
    repeat split; try done. by eexists.
  - rewrite !serve_GET. rewrite serve_GET in Hs.
    destruct (notes (db w) !! id) as [s|] eqn:E; [|destruct (in_range id) eqn:R];
      injection Hs as <- <-; simpl; rewrite ?E, ?R.
    + repeat split; try done. by eexists.
    + repeat split; try done. by eexists.
    + repeat split; try done. exists []. by rewrite app_nil_r.
Qed.

(** X3: whatever the request, the history of statements only grows, by at
    most four statements of which at most one is a COMMIT; and the
    database changes only when a COMMIT was sent. *)
Theorem request_sends_few_statements clock r w w' a :
  serve clock r w = (w', a) ->
  exists new,
    log w' = log w ++ new /\
    (length new <= 4)%nat /\
    (length (List.filter is_commit new) <= 1)%nat /\
    (db w' <> db w -> In COMMIT new).
Proof.
  intros Hs. destruct r as [| |b|id|id b|id].
  - injection Hs as <- <-. exists []. rewrite app_nil_r. simpl.
    repeat split; try done; lia.
  - rewrite serve_GET_notes in Hs. injection Hs as <- <-.
    eexists. split; [done|]. simpl. repeat split; try done; lia.
  - rewrite serve_POST in Hs. destruct (NoteCreate.validate b) as [p|].
    2:{ injection Hs as <- <-. exists []. rewrite app_nil_r. simpl.
        repeat split; try done; lia. }
    cbv zeta in Hs. destruct (MAX_ROWID <? _); injection Hs as <- <-.
    + eexists. split; [done|]. simpl. repeat split; try done; lia.
    + eexists. split; [done|]. simpl. repeat split; try lia. tauto.
  - rewrite serve_GET in Hs.
    destruct (notes (db w) !! id); [|destruct (in_range id)];
      injection Hs as <- <-.
    + eexists. split; [done|]. simpl. repeat split; try done; lia.
    + eexists. split; [done|]. simpl. repeat split; try done; lia.
    + exists []. rewrite app_nil_r. simpl. repeat split; try done; lia.
  - rewrite serve_PUT in Hs. cbv zeta in Hs.
    destruct (NoteUpdate.validate b) as [p|].
    2:{ injection Hs as <- <-. exists []. rewrite app_nil_r. simpl.
        repeat split; try done; lia. }
    destruct (notes (db w) !! id); [|destruct (in_range id)];
      injection Hs as <- <-.
    + eexists. split; [done|]. simpl. repeat split; try lia. tauto.
    + eexists. split; [done|]. simpl. repeat split; try done; lia.
    + exists []. rewrite app_nil_r. simpl. repeat split; try done; lia.
  - rewrite serve_DELETE in Hs.
    destruct (notes (db w) !! id); [|destruct (in_range id)];
      injection Hs as <- <-.
    + eexists. split; [done|]. simpl. repeat split; try lia. tauto.
    + eexists. split; [done|]. simpl. repeat split; try lia. tauto.
    + exists []. rewrite app_nil_r. simpl. repeat split; try done; lia.
Qed.

(** ** The order of the listing *)

Section rows.
Implicit Types (m : gmap Z stored) (r : Row) (l : list Row).

Lemma Order_by_same_id r1 r2 :
  Order_by r1 r2 -> Order_by r2 r1 -> row_id r1 = row_id r2.
Proof.
  unfold Order_by, order_by.
  rewrite (str_compare_antisym (row_updated_at r2) (row_updated_at r1)).
  destruct (str_compare (row_updated_at r2) (row_updated_at r1)); simpl;
    try done.
  intros ?%Z.leb_le ?%Z.leb_le. lia.
Qed.

Lemma elem_of_rows m r :
  r ∈ to_row <$> map_to_list m <-> exists k s, m !! k = Some s /\ r = to_row (k, s).
Proof.
  rewrite list_elem_of_fmap. split.
  - intros ([k s] & -> & Hks%elem_of_map_to_list). eauto.
  - intros (k & s & Hks & ->). exists (k, s). by rewrite elem_of_map_to_list.
Qed.

Lemma rows_same_id m r1 r2 :
  r1 ∈ to_row <$> map_to_list m -> r2 ∈ to_row <$> map_to_list m ->
  row_id r1 = row_id r2 -> r1 = r2.
Proof.
  intros (k1 & s1 & H1 & ->)%elem_of_rows (k2 & s2 & H2 & ->)%elem_of_rows.
  simpl. intros <-. congruence.
Qed.

Lemma NoDup_rows m : NoDup (to_row <$> map_to_list m).
Proof.
  apply (NoDup_fmap_1 row_id). rewrite <- list_fmap_compose.
  rewrite (list_fmap_ext _ fst (map_to_list m)) by (by intros ? [k s]).
  apply NoDup_fst_map_to_list.
Qed.

(** The sorted rows of a table are the only arrangement of its rows
    that respects the order. *)
Lemma sorted_rows_unique m l :
  l ≡ₚ to_row <$> map_to_list m ->
  StronglySorted Order_by l ->
  l = merge_sort Order_by (to_row <$> map_to_list m).
Proof.
  intros Hperm Hsorted.
  apply (StronglySorted_unique_strong Order_by); [|done| |].
  - intros r1 r2 H1 H2 H12 H21. apply (rows_same_id m).
    + by rewrite <- Hperm.
    + by rewrite merge_sort_Permutation in H2.
    + by apply Order_by_same_id.
  - apply StronglySorted_merge_sort; apply _.
  - by rewrite merge_sort_Permutation.
Qed.

Lemma StronglySorted_filter_rows (P : Row -> Prop) `{!forall r, Decision (P r)} l :
  StronglySorted Order_by l -> StronglySorted Order_by (filter P l).
Proof.
  induction 1 as [|r l Hl IH Hr]; [constructor|].
  rewrite filter_cons. case_decide; [|done].
  constructor; [done|]. apply Forall_forall. intros r' [_ Hr']%list_elem_of_filter.
  by apply (proj1 (Forall_forall _ _) Hr).
Qed.

Lemma rows_delete_perm m k :
  to_row <$> map_to_list (delete k m) ≡ₚ
  filter (fun r => row_id r <> k) (to_row <$> map_to_list m).
Proof.
  apply NoDup_Permutation.
  - apply NoDup_rows.
  - apply NoDup_filter, NoDup_rows.
  - intros r. rewrite list_elem_of_filter, !elem_of_rows. split.
    + intros (k' & s & Hks & ->). apply lookup_delete_Some in Hks as [Hne Hks].
      split; [by simpl|eauto].
    + intros [Hne (k' & s & Hks & ->)]. exists k', s. split; [|done].
      apply lookup_delete_Some. by split; [intros ->|].
Qed.

Lemma sorted_rows_delete m k :
  merge_sort Order_by (to_row <$> map_to_list (delete k m)) =
  filter (fun r => row_id r <> k) (merge_sort Order_by (to_row <$> map_to_list m)).
Proof.
  symmetry. apply sorted_rows_unique.
  - by rewrite rows_delete_perm, merge_sort_Permutation.
  - apply StronglySorted_filter_rows, StronglySorted_merge_sort; apply _.
Qed.

(** A row that comes before every other row of the table heads the
    sorted rows, and the rest is the sorted rows without it. *)
Lemma sorted_rows_insert m k s :
  (forall k' s', k' <> k -> m !! k' = Some s' ->
     Order_by (to_row (k, s)) (to_row (k', s'))) ->
  merge_sort Order_by (to_row <$> map_to_list (<[k := s]> m)) =
  to_row (k, s) ::
    filter (fun r => row_id r <> k) (merge_sort Order_by (to_row <$> map_to_list m)).
Proof.
  intros Hfirst. symmetry. apply sorted_rows_unique.
  - rewrite <- insert_delete_eq.
    rewrite map_to_list_insert by apply lookup_delete_eq.
    rewrite fmap_cons. f_equiv.
    by rewrite rows_delete_perm, merge_sort_Permutation.
  - constructor.
    + apply StronglySorted_filter_rows, StronglySorted_merge_sort; apply _.
    + apply Forall_forall. intros r [Hne Hr]%list_elem_of_filter.
      rewrite merge_sort_Permutation in Hr.
      apply elem_of_rows in Hr as (k' & s' & Hks & ->). by apply Hfirst.
Qed.

Lemma filter_rows_absent m k l :
  m !! k = None -> l ≡ₚ to_row <$> map_to_list m ->
  filter (fun r => row_id r <> k) l = l.
Proof.
  intros Hk Hperm.
  assert (Hall : Forall (fun r => row_id r <> k) l).
  { apply Forall_forall. intros r Hr. rewrite Hperm in Hr.
    apply elem_of_rows in Hr as (k' & s' & Hks & ->). simpl. congruence. }
  clear Hperm. induction Hall as [|r l Hr _ IH]; [done|].
  rewrite filter_cons. case_decide; [by f_equal|done].
Qed.

Lemma filter_row_to_note k l :
  filter (other_than k) (_row_to_note <$> l) =
  _row_to_note <$> filter (fun r => row_id r <> k) l.
Proof.
  induction l as [|r l IH]; [done|].
  rewrite fmap_cons, !filter_cons, IH.
  unfold other_than at 1; simpl. by repeat case_decide.
Qed.
End rows.

Lemma note_before_same_id n1 n2 :
  note_before n1 n2 -> note_before n2 n1 -> Note.id n1 = Note.id n2.
Proof.
  unfold note_before, str_lt. intros [H12|[E12 H12]] [H21|[E21 H21]].
  - rewrite (str_compare_antisym (Note.updated_at n2) (Note.updated_at n1)) in H21.
    by rewrite H12 in H21.
  - by rewrite E21, str_compare_refl in H12.
  - by rewrite E12, str_compare_refl in H21.
  - lia.
Qed.

Lemma elem_of_listing d n :
  n ∈ listing d <-> exists k s, notes d !! k = Some s /\ n = note_of k s.
Proof. apply elem_of_select_all. Qed.

Lemma StronglySorted_listing d : StronglySorted note_before (listing d).
Proof.
  apply (StronglySorted_fmap _ Order_by); [apply Order_by_note_before|].
  apply StronglySorted_merge_sort; apply _.
Qed.

(** X4: the listing is determined by the rows alone: any arrangement of the
    same notes that puts later [updated_at] first and, among equal
    ones, larger ids first is the listing [GET /notes] answers with. *)
Theorem listing_is_the_only_order clock w l :
  l ≡ₚ listing (db w) ->
  StronglySorted note_before l ->
  (serve clock GET_notes w).2 = Ok (NoteList l).
Proof.
  intros Hperm Hsorted. rewrite serve_GET_notes. simpl. do 2 f_equal.
  symmetry. apply (StronglySorted_unique_strong note_before); [|done| |done].
  - intros n1 n2 H1 H2 H12 H21. rewrite Hperm in H1.
    apply elem_of_listing in H1 as (k1 & s1 & Hk1 & ->).
    apply elem_of_listing in H2 as (k2 & s2 & Hk2 & ->).
    pose proof (note_before_same_id _ _ H12 H21) as Hid. simpl in Hid.
    subst k2. congruence.
  - apply StronglySorted_listing.
Qed.

(** X5: a note created when the clock reads no earlier than every stored
    [updated_at] comes first in the listing, and the notes that were
    there follow in the order they had. *)
Theorem created_note_heads_the_listing clock clock' b p w :
  db_wf (db w) ->
  NoteCreate.validate b = Some p ->
  seq (db w) < MAX_ROWID ->
  updated_by (db w) (_utc_now_iso clock) ->
  exists w1 n,
    serve clock (POST_notes b) w = (w1, Ok (Created n)) /\
    (serve clock' GET_notes w).2 = Ok (NoteList (listing (db w))) /\
    (serve clock' GET_notes w1).2 = Ok (NoteList (n :: listing (db w))).
Proof.
  intros Hwf Hp Hcap Hnow. rewrite serve_POST, Hp. cbv zeta.
  pose proof (high_water_fresh (db w)) as Hfresh.
  rewrite (high_water_wf _ Hwf) in *.
  destruct (Z.ltb_spec MAX_ROWID (seq (db w) + 1)); [lia|].
  eexists _, _. split; [done|]. split; [done|].
  rewrite serve_GET_notes. simpl. do 2 f_equal.
  rewrite sorted_rows_insert.
  - rewrite fmap_cons. f_equal. unfold listing. f_equal.
    apply (filter_rows_absent _ _ _ Hfresh), merge_sort_Permutation.
  - intros k' s' _ Hk'. unfold Order_by, order_by; simpl.
    specialize (Hnow _ _ Hk'). unfold str_le, str_leb in Hnow. simpl in Hnow.
    destruct (str_compare (s_updated_at s') (_utc_now_iso clock)); try done.
    apply Z.leb_le. assert (k' <= seq (db w)); [|lia].
    apply Hwf. by rewrite Hk'.
Qed.

(** X6: an update made when the clock reads later than the [updated_at] of
    every other note moves the note to the front of the listing; the
    other notes follow in the order they had. *)
Theorem updated_note_heads_the_listing clock clock' id b p s w :
  1 <= id ->
  NoteUpdate.validate b = Some p ->
  notes (db w) !! id = Some s ->
  others_older (db w) id (_utc_now_iso clock) ->
  exists w1 n,
    serve clock (PUT_notes_id id b) w = (w1, Ok (OK n)) /\
    (serve clock' GET_notes w).2 = Ok (NoteList (listing (db w))) /\
    (serve clock' GET_notes w1).2 =
      Ok (NoteList (n :: filter (other_than id) (listing (db w)))).
Proof.
  intros Hid Hp Hs Hnow. rewrite serve_PUT, Hp, Hs. cbv zeta.
  eexists _, _. split; [done|]. split; [done|].
  rewrite serve_GET_notes. simpl. do 2 f_equal.
  rewrite sorted_rows_insert.
  - rewrite fmap_cons. f_equal. unfold listing. by rewrite filter_row_to_note.
  - intros k' s' Hne Hk'. unfold Order_by, order_by; simpl.
    by rewrite (Hnow _ _ Hk' Hne).
Qed.

Lemma serve_DELETE_notes clock id w :
  notes (db (serve clock (DELETE_notes_id id) w).1) = delete id (notes (db w)).
Proof.
  rewrite serve_DELETE.
  destruct (notes (db w) !! id) eqn:E; [done|].
  destruct (in_range id); [done|]. simpl. by rewrite delete_id.
Qed.

(** X7: deleting a note takes exactly that note out of the listing: the
    others stay, in the order they had. *)
Theorem delete_removes_one_from_listing clock clock' id w :
  1 <= id ->
  (serve clock' GET_notes w).2 = Ok (NoteList (listing (db w))) /\
  (serve clock' GET_notes (serve clock (DELETE_notes_id id) w).1).2 =
    Ok (NoteList (filter (other_than id) (listing (db w)))).
Proof.
  intros Hid. split; [done|]. rewrite serve_GET_notes.
  unfold snd. do 2 f_equal. unfold listing. rewrite serve_DELETE_notes.
  rewrite sorted_rows_delete. by rewrite filter_row_to_note.
Qed.

(** ** Writing, then reading *)

(** X8: a note that a create answers with can be fetched: its id is at
    least 1 and [GET /notes/{id}] answers 200 with the same note,
    whatever the clock reads then. *)
Theorem created_note_can_be_fetched clock clock' b p w :
  0 <= seq (db w) ->
  NoteCreate.validate b = Some p ->
  high_water (db w) < MAX_ROWID ->
  exists w1 n w2,
    serve clock (POST_notes b) w = (w1, Ok (Created n)) /\
    1 <= Note.id n /\
    serve clock' (GET_notes_id (Note.id n)) w1 = (w2, Ok (OK n)) /\
    db w2 = db w1.
Proof.
  intros Hseq Hp Hcap. rewrite serve_POST, Hp. cbv zeta.
  destruct (high_water_spec (db w)) as (Hhw & _ & _).
  destruct (Z.ltb_spec MAX_ROWID (high_water (db w) + 1)); [lia|].
  eexists _, _, _. split; [done|]. rewrite serve_GET. simpl. split; [lia|].
  by rewrite lookup_insert_eq.
Qed.

(** X9: the note an update answers with is the one [GET /notes/{id}]
    answers with afterwards. *)
Theorem updated_note_can_be_fetched clock clock' id b p s w :
  1 <= id ->
  NoteUpdate.validate b = Some p ->
  notes (db w) !! id = Some s ->
  exists w1 n w2,
    serve clock (PUT_notes_id id b) w = (w1, Ok (OK n)) /\
    serve clock' (GET_notes_id id) w1 = (w2, Ok (OK n)) /\
    db w2 = db w1.
Proof.
  intros Hid Hp Hs. rewrite serve_PUT, Hp, Hs. cbv zeta.
  eexists _, _, _. split; [done|]. rewrite serve_GET. simpl.
  by rewrite lookup_insert_eq.
Qed.

(** X10: for an id that SQLite can bind, that is one within the signed
    64-bit range, once [DELETE /notes/{id}] has been served, whether it
    found the note or not, a second delete and an update of that id are
    both answered 404 and change nothing. *)
Theorem deleted_note_is_gone clock clock' id b p w :
  1 <= id ->
  in_range id = true ->
  NoteUpdate.validate b = Some p ->
  exists w2 w3,
    serve clock' (DELETE_notes_id id) (serve clock (DELETE_notes_id id) w).1 =
      (w2, Raise NotFoundError) /\
    db w2 = db (serve clock (DELETE_notes_id id) w).1 /\
    serve clock' (PUT_notes_id id b) (serve clock (DELETE_notes_id id) w).1 =
      (w3, Raise NotFoundError) /\
    db w3 = db (serve clock (DELETE_notes_id id) w).1.
Proof.
  intros Hid R Hp.
  assert (Hgone : notes (db (serve clock (DELETE_notes_id id) w).1) !! id = None)
    by (rewrite serve_DELETE_notes; apply lookup_delete_eq).
  destruct (serve clock (DELETE_notes_id id) w).1 as [[m sq] lg].
  simpl in Hgone.
  rewrite serve_PUT, serve_DELETE, Hp. cbv zeta. simpl. rewrite Hgone, R.
  eexists _, _. split; [done|]. simpl. split; [|done].
  by rewrite (delete_id _ _ Hgone).
Qed.

(** X11: a create leaves every row that was there as it was, and a delete
    leaves every row but the one it names, and the counter, as they
    were. *)
Theorem create_and_delete_touch_one_row clock id b w :
  (forall k s,
     notes (db w) !! k = Some s ->
     notes (db (serve clock (POST_notes b) w).1) !! k = Some s) /\
  (forall k,
     k <> id ->
     notes (db (serve clock (DELETE_notes_id id) w).1) !! k = notes (db w) !! k) /\
  seq (db (serve clock (DELETE_notes_id id) w).1) = seq (db w).
Proof.
  split; [|split].
  - intros k s Hk. rewrite serve_POST.
    destruct (NoteCreate.validate b) as [p|]; [|done]. cbv zeta.
    destruct (MAX_ROWID <? _); [done|]. simpl.
    rewrite lookup_insert_ne; [done|]. intros <-.
    by rewrite high_water_fresh in Hk.
  - intros k Hk. rewrite serve_DELETE_notes. by rewrite lookup_delete_ne.
  - rewrite serve_DELETE.
    destruct (notes (db w) !! id); [done|]. by destruct (in_range id).
Qed.

(** X12: an update replaces everything an earlier update of the same note
    wrote: after two updates in a row the database and the answer are
    those of the second update alone. *)
Theorem last_update_wins clock1 clock2 id b1 b2 w :
  is_Some (NoteUpdate.validate b2) ->
  db (serve clock2 (PUT_notes_id id b2) (serve clock1 (PUT_notes_id id b1) w).1).1 =
    db (serve clock2 (PUT_notes_id id b2) w).1 /\
  (serve clock2 (PUT_notes_id id b2) (serve clock1 (PUT_notes_id id b1) w).1).2 =
    (serve clock2 (PUT_notes_id id b2) w).2.
Proof.
  intros [p2 Hp2]. rewrite !serve_PUT, Hp2. cbv zeta.
  destruct (NoteUpdate.validate b1) as [p1|]; [|done].
  destruct (notes (db w) !! id) as [s|] eqn:E; simpl.
  - rewrite lookup_insert_eq. simpl. by rewrite insert_insert_eq.
  - destruct (in_range id) eqn:R; simpl; by rewrite E, ?R.
Qed.

(** ** Ids and counts over a run *)

Lemma serve_seq clock r w w' a :
  serve clock r w = (w', a) ->
  db_wf (db w) ->
  seq (db w') = seq (db w) + (if is_created a then 1 else 0).
Proof.
  intros Hs Hwf. destruct r as [| |b|id|id b|id].
  - injection Hs as <- <-. simpl. lia.
  - rewrite serve_GET_notes in Hs. injection Hs as <- <-. simpl. lia.
  - rewrite serve_POST, (high_water_wf _ Hwf) in Hs.
    destruct (NoteCreate.validate b) as [p|].
    2:{ injection Hs as <- <-. simpl. lia. }
    cbv zeta in Hs. destruct (MAX_ROWID <? _); injection Hs as <- <-; simpl; lia.
  - rewrite serve_GET in Hs.
    destruct (notes (db w) !! id); [|destruct (in_range id)];
      injection Hs as <- <-; simpl; lia.
  - rewrite serve_PUT in Hs. cbv zeta in Hs.
    destruct (NoteUpdate.validate b) as [p|].
    2:{ injection Hs as <- <-. simpl. lia. }
    destruct (notes (db w) !! id); [|destruct (in_range id)];
      injection Hs as <- <-; simpl; lia.
  - rewrite serve_DELETE in Hs.
    destruct (notes (db w) !! id); [|destruct (in_range id)];
      injection Hs as <- <-; simpl; lia.
Qed.

Lemma count_cons f a l :
  count f (a :: l) = (if f a then 1 else 0) + count f l.
Proof. unfold count. simpl. destruct (f a); simpl; lia. Qed.

(** X13: ids are handed out one after the other: after a run the counter
    has advanced by the number of creates that were answered 201, and
    the next create gets the id after it, whatever was deleted
    meanwhile. *)
Theorem ids_are_consecutive clock b p rs w w' l :
  db_wf (db w) ->
  run w rs = (w', l) ->
  NoteCreate.validate b = Some p ->
  seq (db w') < MAX_ROWID ->
  seq (db w') = seq (db w) + count is_created l /\
  exists w2 n,
    serve clock (POST_notes b) w' = (w2, Ok (Created n)) /\
    Note.id n = seq (db w) + count is_created l + 1.
Proof.
  intros Hwf Hrun Hp Hcap.
  assert (Hseq : db_wf (db w') /\ seq (db w') = seq (db w) + count is_created l).
  { clear Hp Hcap. revert w w' l Hwf Hrun.
    induction rs as [|[c r] rs IH]; intros w w' l Hwf Hrun; simpl in Hrun.
    - injection Hrun as <- <-. split; [done|]. unfold count. simpl. lia.
    - destruct (serve c r w) as [w1 a1] eqn:E1.
      destruct (run w1 rs) as [w2 l2] eqn:E2. injection Hrun as <- <-.
      destruct (serve_step _ _ _ _ _ E1 Hwf) as (Hwf1 & _).
      destruct (IH _ _ _ Hwf1 E2) as [Hwf2 Heq]. split; [done|].
      rewrite count_cons, Heq, (serve_seq _ _ _ _ _ E1 Hwf). lia. }
  destruct Hseq as [Hwf' Hseq]. split; [done|].
  rewrite serve_POST, Hp, (high_water_wf _ Hwf'). cbv zeta.
  destruct (Z.ltb_spec MAX_ROWID (seq (db w') + 1)); [lia|].
  eexists _, _. split; [done|]. simpl. lia.
Qed.

Lemma serve_size clock r w :
  Z.of_nat (size (notes (db (serve clock r w).1))) =
    Z.of_nat (size (notes (db w)))
    + (if is_created (serve clock r w).2 then 1 else 0)
    - (if is_no_content (serve clock r w).2 then 1 else 0).
Proof.
  destruct r as [| |b|id|id b|id].
  - simpl. lia.
  - rewrite serve_GET_notes. simpl. lia.
  - rewrite serve_POST. destruct (NoteCreate.validate b) as [p|]; [|simpl; lia].
    cbv zeta. destruct (MAX_ROWID <? _); simpl; [lia|].
    rewrite map_size_insert_None by apply high_water_fresh. lia.
  - rewrite serve_GET.
    destruct (notes (db w) !! id); [|destruct (in_range id)]; simpl; lia.
  - rewrite serve_PUT. cbv zeta.
    destruct (NoteUpdate.validate b) as [p|]; [|simpl; lia].
    destruct (notes (db w) !! id) as [s|] eqn:E;
      [|destruct (in_range id); simpl; lia].
    simpl. rewrite map_size_insert_Some by (by rewrite E). lia.
  - rewrite serve_DELETE.
    destruct (notes (db w) !! id) as [s|] eqn:E.
    + simpl. rewrite map_size_delete, E.
      assert (size (notes (db w)) <> 0%nat); [|lia].
      apply map_size_non_empty_iff. intros Hempty. by rewrite Hempty in E.
    + destruct (in_range id); simpl; [|lia].
      rewrite (delete_id _ _ E). lia.
Qed.

(** X14: the number of notes stored after a run is the number before, plus
    the creates answered 201, minus the deletes answered 204: nothing
    else adds or removes a row. *)
Theorem note_count_follows_answers rs w :
  Z.of_nat (size (notes (db (run w rs).1))) =
    Z.of_nat (size (notes (db w)))
    + count is_created (run w rs).2
    - count is_no_content (run w rs).2.
Proof.
  revert w. induction rs as [|[c r] rs IH]; intros w; simpl.
  - unfold count. simpl. lia.
  - pose proof (serve_size c r w) as Hstep.
    destruct (serve c r w) as [w1 a1]. specialize (IH w1).
    destruct (run w1 rs) as [w2 l2]. simpl in *.
    rewrite !count_cons. lia.
Qed.

Lemma serve_ids_from_one clock r w w' a :
  serve clock r w = (w', a) ->
  ids_from_one (db w) ->
  ids_from_one (db w') /\ (forall n, n ∈ notes_of a -> 1 <= Note.id n).
Proof.
  intros Hs [Hseq Hpos].
  destruct (high_water_spec (db w)) as (Hhw & _ & _).
  destruct r as [| |b|id|id b|id].
  - injection Hs as <- <-. split; [done|]. intros n Hn. by apply elem_of_nil in Hn.
  - rewrite serve_GET_notes in Hs. injection Hs as <- <-. split; [done|].
    intros n (k & s & Hk & ->)%elem_of_select_all. simpl. by apply (Hpos _ _ Hk).
  - rewrite serve_POST in Hs. destruct (NoteCreate.validate b) as [p|].
    2:{ injection Hs as <- <-. split; [done|]. intros n Hn. by apply elem_of_nil in Hn. }
    cbv zeta in Hs. destruct (MAX_ROWID <? _); injection Hs as <- <-.
    { split; [done|]. intros n Hn. by apply elem_of_nil in Hn. }
    split.
    + split; simpl; [lia|]. apply map_Forall_insert_2; [lia|done].
    + intros n ->%list_elem_of_singleton. simpl. lia.
  - rewrite serve_GET in Hs.
    destruct (notes (db w) !! id) as [s|] eqn:E; [|destruct (in_range id)];
      injection Hs as <- <-; (split; [done|]); simpl.
    + intros n ->%list_elem_of_singleton. simpl. by apply (Hpos _ _ E).
    + intros n Hn. by apply elem_of_nil in Hn.
    + intros n Hn. by apply elem_of_nil in Hn.
  - rewrite serve_PUT in Hs. cbv zeta in Hs.
    destruct (NoteUpdate.validate b) as [p|].
    2:{ injection Hs as <- <-. split; [done|]. intros n Hn. by apply elem_of_nil in Hn. }
    destruct (notes (db w) !! id) as [s|] eqn:E; [|destruct (in_range id)];
      injection Hs as <- <-.
    2,3: split; [done|]; intros n Hn; by apply elem_of_nil in Hn.
    split.
    + split; simpl; [done|]. apply map_Forall_insert_2; [|done]. by apply (Hpos _ _ E).
    + intros n ->%list_elem_of_singleton. simpl. by apply (Hpos _ _ E).
  - rewrite serve_DELETE in Hs.
    destruct (notes (db w) !! id) as [s|] eqn:E; [|destruct (in_range id)];
      injection Hs as <- <-.
    3:{ split; [done|]. intros n Hn. by apply elem_of_nil in Hn. }
    all: split; [split; simpl; [done|]; by apply map_Forall_delete|];
      intros n Hn; by apply elem_of_nil in Hn.
Qed.

(** X15: starting from a database whose keys are all at least 1, every note
    any answer of a run carries has an id of at least 1, as the routes
    on [/notes/{id}] declare theirs to be; the database keeps the
    property. *)
Theorem ids_stay_positive rs w w' l :
  ids_from_one (db w) ->
  run w rs = (w', l) ->
  ids_from_one (db w') /\
  (forall a n, a ∈ l -> n ∈ notes_of a -> 1 <= Note.id n).
Proof.
  revert w w' l. induction rs as [|[c r] rs IH]; intros w w' l Hw Hrun;
    simpl in Hrun.
  - injection Hrun as <- <-. split; [done|]. intros a n Ha. by apply elem_of_nil in Ha.
  - destruct (serve c r w) as [w1 a1] eqn:E1.
    destruct (run w1 rs) as [w2 l2] eqn:E2. injection Hrun as <- <-.
    destruct (serve_ids_from_one _ _ _ _ _ E1 Hw) as [Hw1 Ha1].
    destruct (IH _ _ _ Hw1 E2) as [Hw2 Hl2]. split; [done|].
    intros a n [->|Ha]%elem_of_cons; eauto.
Qed.

(** ** Payloads *)

Section strip_more.
Implicit Types s t : str.

Lemma lstrip_nil s : lstrip s = [] -> forallb is_space s = true.
Proof.
  induction s as [|c s IH]; simpl; [done|].
  destruct (is_space c); [done|discriminate].
Qed.

Lemma strip_nil_iff s : strip s = [] <-> forallb is_space s = true.
Proof.
  split; [|apply strip_all_space]. unfold strip.
  destruct (lstrip_head s) as [E|(c & u & E & Hc)].
  - intros _. by apply lstrip_nil.
  - rewrite E, (rstrip_cons _ _ Hc). discriminate.
Qed.

Lemma strip_not_blank s : strip s <> [] <-> forallb is_space s = false.
Proof.
  rewrite strip_nil_iff. by destruct (forallb is_space s).
Qed.

Lemma lstrip_decomp s :
  exists pre, s = pre ++ lstrip s /\ forallb is_space pre = true.
Proof.
  induction s as [|c s (pre & E & Hpre)]; [by exists []|]. simpl.
  destruct (is_space c) eqn:Hc.
  - exists (c :: pre). simpl. rewrite Hc, Hpre. split; [by f_equal|done].
  - by exists [].
Qed.

Lemma forallb_rev (f : N -> bool) s : forallb f (rev s) = forallb f s.
Proof.
  induction s as [|c s IH]; [done|]. simpl.
  rewrite forallb_app, IH. simpl. rewrite andb_true_r. apply andb_comm.
Qed.

Lemma rstrip_decomp s :
  exists post, s = rstrip s ++ post /\ forallb is_space post = true.
Proof.
  destruct (lstrip_decomp (rev s)) as (pre & E & Hpre).
  exists (rev pre). split; [|by rewrite forallb_rev].
  unfold rstrip. by rewrite <- rev_app_distr, <- E, rev_involutive.
Qed.

Lemma strip_decomp s :
  exists pre post,
    s = pre ++ strip s ++ post /\
    forallb is_space pre = true /\ forallb is_space post = true.
Proof.
  destruct (lstrip_decomp s) as (pre & E1 & Hpre).
  destruct (rstrip_decomp (lstrip s)) as (post & E2 & Hpost).
  exists pre, post. split; [|done]. unfold strip. by rewrite <- E2.
Qed.

Lemma strip_head s c : head (strip s) = Some c -> is_space c = false.
Proof.
  unfold strip. destruct (lstrip_head s) as [->|(c' & u & -> & Hc)]; [done|].
  rewrite (rstrip_cons _ _ Hc). simpl. by intros [= <-].
Qed.

Lemma strip_last s c : last (strip s) = Some c -> is_space c = false.
Proof.
  unfold strip, rstrip.
  destruct (lstrip_head (rev (lstrip s))) as [->|(c' & u & -> & Hc)]; [done|].
  simpl. rewrite last_snoc. by intros [= <-].
Qed.
End strip_more.

(** X16: of the bodies whose strings hold no lone surrogate, create and
    update accept exactly the same ones: those with a title that is
    present, has between 1 and 200 characters as sent and is not made
    of whitespace only, and a content of at most 10000 characters when
    there is one.  Both keep the trimmed title and the content as sent
    (not trimmed), the empty string when it is left out. *)
Theorem payload_acceptance b :
  body_well_formed b = true ->
  (is_Some (NoteCreate.validate b) <->
     exists t, body_title b = Some t /\ 1 <= len t <= 200 /\
               forallb is_space t = false /\
               len (default [] (body_content b)) <= 10000) /\
  (is_Some (NoteCreate.validate b) <-> is_Some (NoteUpdate.validate b)) /\
  (forall p q,
     NoteCreate.validate b = Some p -> NoteUpdate.validate b = Some q ->
     NoteUpdate.title q = NoteCreate.title p /\
     NoteUpdate.content q = NoteCreate.content p /\
     NoteCreate.content p = default [] (body_content b) /\
     strip <$> body_title b = Some (NoteCreate.title p)).
Proof.
  intros _. split; [|split].
  - split.
    + intros [p (t & Ht & Hlen & Hne & Hc & _)%NoteCreate_validate_Some].
      exists t. by rewrite <- strip_not_blank.
    + intros (t & Ht & Hlen & Hne & Hc). eexists.
      apply NoteCreate_validate_Some. exists t. by rewrite strip_not_blank.
  - split.
    + intros [p (t & Ht & Hlen & Hne & Hc & _)%NoteCreate_validate_Some].
      eexists. apply NoteUpdate_validate_Some. by exists t.
    + intros [p (t & Ht & Hlen & Hne & Hc & _)%NoteUpdate_validate_Some].
      eexists. apply NoteCreate_validate_Some. by exists t.
  - intros p q (t & Ht & _ & _ & _ & ->)%NoteCreate_validate_Some
                (t' & Ht' & _ & _ & _ & ->)%NoteUpdate_validate_Some.
    rewrite Ht in *. injection Ht' as <-. by simpl.
Qed.

(** X17: the title of an accepted payload is the title sent without the
    whitespace around it: it has between 1 and 200 characters, neither
    begins nor ends with whitespace, and what was cut off on both sides
    is whitespace only.  Sent back as it is, with the content, it is
    accepted by update and comes out unchanged. *)
Theorem accepted_title_is_trimmed b p :
  NoteCreate.validate b = Some p ->
  1 <= len (NoteCreate.title p) <= 200 /\
  (forall c, head (NoteCreate.title p) = Some c -> is_space c = false) /\
  (forall c, last (NoteCreate.title p) = Some c -> is_space c = false) /\
  (exists t pre post,
     body_title b = Some t /\
     t = pre ++ NoteCreate.title p ++ post /\
     forallb is_space pre = true /\ forallb is_space post = true) /\
  NoteUpdate.validate
      (Body (Some (NoteCreate.title p)) (Some (NoteCreate.content p))) =
    Some (NoteUpdate.Make (NoteCreate.title p) (NoteCreate.content p)).
Proof.
  intros (t & Ht & Hlen & Hne & Hc & ->)%NoteCreate_validate_Some. simpl.
  assert (Hlen' : 1 <= len (strip t) <= 200).
  { pose proof (len_strip t). split; [|lia].
    unfold len. destruct (strip t); [done|]. simpl. lia. }
  split; [done|]. split; [apply strip_head|]. split; [apply strip_last|].
  split.
  - destruct (strip_decomp t) as (pre & post & E & Hpre & Hpost).
    by exists t, pre, post.
  - apply NoteUpdate_validate_Some. exists (strip t). simpl.
    rewrite strip_idemp. split_and!; try done; lia.
Qed.

(** ** Timestamps *)

Lemma length_zfill w : forall n, length (zfill w n) = w.
Proof. induction w as [|w IH]; intros n; simpl; [done|]. by rewrite IH. Qed.

Lemma lex_eq c1 c2 : lex c1 c2 = Eq -> c1 = Eq /\ c2 = Eq.
Proof. by destruct c1. Qed.

Lemma datetime_compare_eq t1 t2 : datetime_compare t1 t2 = Eq -> t1 = t2.
Proof.
  destruct t1, t2. unfold datetime_compare. simpl.
  intros (?%N.compare_eq & (?%N.compare_eq & (?%N.compare_eq & (?%N.compare_eq &
    (?%N.compare_eq & (?%N.compare_eq & ?%N.compare_eq)%lex_eq)%lex_eq)%lex_eq)
    %lex_eq)%lex_eq)%lex_eq.
  by subst.
Qed.

(** X18: the timestamps [_utc_now_iso] writes compare as text the way the
    instants compare in time, so that [ORDER BY updated_at] on the TEXT
    column is an order by time; two different instants never give the
    same text; and a timestamp has 25 characters, or 32 when the
    microseconds are not zero. *)
Theorem timestamps_order_like_time t1 t2 :
  datetime_ok t1 ->
  datetime_ok t2 ->
  str_compare (_utc_now_iso t1) (_utc_now_iso t2) = datetime_compare t1 t2 /\
  (_utc_now_iso t1 = _utc_now_iso t2 -> t1 = t2) /\
  len (_utc_now_iso t1) = (if (microsecond t1 =? 0)%N then 25 else 32).
Proof.
  intros H1 H2. split; [by apply isoformat_compare|]. split.
  - intros E. apply datetime_compare_eq.
    rewrite <- (isoformat_compare _ _ H1 H2), E. apply str_compare_refl.
  - unfold _utc_now_iso, isoformat, len.
    destruct (microsecond t1 =? 0)%N;
      rewrite ?length_app, ?length_zfill; reflexivity.
Qed.

(** ** Where the database is *)

Lemma upto_last_sep_nil p : upto_last_sep p = [] <-> existsb is_sep p = false.
Proof.
  induction p as [|c p IH]; simpl; [done|].
  destruct (upto_last_sep p) as [|c' h].
  - rewrite (proj1 IH eq_refl), orb_false_r. by destruct (is_sep c).
  - split; [done|]. intros [_ H]%orb_false_elim. by apply IH in H.
Qed.

Lemma lstrip_sep_nil s : lstrip_sep s = [] -> forallb is_sep s = true.
Proof.
  induction s as [|c s IH]; simpl; [done|].
  destruct (is_sep c); [done|discriminate].
Qed.

Lemma dirname_nil p : dirname p = [] <-> existsb is_sep p = false.
Proof.
  rewrite <- upto_last_sep_nil. unfold dirname.
  destruct (forallb is_sep (upto_last_sep p)) eqn:E; [done|].
  split.
  - intros H. apply (f_equal (@rev N)) in H. rewrite rev_involutive in H.
    apply lstrip_sep_nil in H. rewrite forallb_rev in H. congruence.
  - intros H. by rewrite H in E.
Qed.

(** X19: [get_db_path] never returns the empty path: [SQLITE_DB] is used
    when it is set to something, and an unset or empty variable gives
    the default.  The directory [_db_conn] then asks [os.makedirs] for
    is the empty string exactly when [SQLITE_DB] is a bare file name,
    one without any [/]. *)
Theorem db_path_and_directory env :
  get_db_path env <> [] /\
  (forall p, env = Some p -> p <> [] -> get_db_path env = p) /\
  (env = None \/ env = Some [] -> get_db_path env = DEFAULT_DB_PATH) /\
  (db_dirname env = [] <->
     exists p, env = Some p /\ p <> [] /\ existsb is_sep p = false).
Proof.
  assert (Hdefault : existsb is_sep DEFAULT_DB_PATH = true) by (by vm_compute).
  split; [|split; [|split]].
  - destruct env as [[|c p]|]; by vm_compute.
  - intros p -> Hp. by destruct p.
  - by intros [->| ->].
  - unfold db_dirname. rewrite dirname_nil. split.
    + destruct env as [[|c p]|]; simpl; try congruence.
      intros H. by exists (c :: p).
    + intros (p & -> & Hp & H). by destruct p.
Qed.

(** * The further properties at concrete requests *)

Example three_notes_listing :
  listing (db three_notes) =
    [Note.Make 3 (py "A") [] jan_2 jan_2;
     Note.Make 2 (py "B") (py "x") jan_1 jan_1;
     Note.Make 1 (py "A") [] jan_1 jan_1].
Proof. vm_compute. reflexivity. Qed.

Example default_db_directory :
  db_dirname None =
    py "/home/kavia/workspace/code-generation/simple-notes-app-312508-312525/database".
Proof. vm_compute. reflexivity. Qed.

Example bare_file_name_has_no_directory : db_dirname (Some (py "notes.db")) = [].
Proof. vm_compute. reflexivity. Qed.

Lemma failed_request_changes_nothing_witness :
  db (serve clock_jan_3 (GET_notes_id 999) three_notes).1 = db three_notes /\
  (NotFoundError = ValidationError ->
   (serve clock_jan_3 (GET_notes_id 999) three_notes).1 = three_notes).
Proof.
  apply (failed_request_changes_nothing clock_jan_3 (GET_notes_id 999)
           three_notes _ NotFoundError).
  vm_compute. reflexivity.
Defined.

Lemma reads_are_safe_and_repeatable_witness :
  db (serve clock_jan_3 GET_notes three_notes).1 = db three_notes /\
  (exists sel,
     log (serve clock_jan_3 GET_notes three_notes).1 = log three_notes ++ sel /\
     forallb is_select sel = true) /\
  (serve clock_jan_1 GET_notes three_notes).2 =
    Ok (NoteList (listing (db three_notes))) /\
  (serve clock_jan_1 GET_notes (serve clock_jan_3 GET_notes three_notes).1).2 =
    Ok (NoteList (listing (db three_notes))).
Proof.
  apply (reads_are_safe_and_repeatable clock_jan_3 clock_jan_1 GET_notes
           three_notes).
  - reflexivity.
  - vm_compute. reflexivity.
Defined.

Lemma request_sends_few_statements_witness :
  exists new,
    log (serve clock_jan_3 (PUT_notes_id 1 body_B) three_notes).1 =
      log three_notes ++ new /\
    (length new <= 4)%nat /\
    (length (List.filter is_commit new) <= 1)%nat /\
    (db (serve clock_jan_3 (PUT_notes_id 1 body_B) three_notes).1 <> db three_notes ->
     In COMMIT new).
Proof.
  apply (request_sends_few_statements clock_jan_3 (PUT_notes_id 1 body_B)
           three_notes _ (serve clock_jan_3 (PUT_notes_id 1 body_B) three_notes).2).
  vm_compute. reflexivity.
Defined.

Lemma listing_is_the_only_order_witness :
  (serve clock_jan_3 GET_notes three_notes).2 =
    Ok (NoteList [Note.Make 3 (py "A") [] jan_2 jan_2;
                  Note.Make 2 (py "B") (py "x") jan_1 jan_1;
                  Note.Make 1 (py "A") [] jan_1 jan_1]).
Proof.
  apply (listing_is_the_only_order clock_jan_3 three_notes).
  - vm_compute. reflexivity.
  - apply (bool_decide_unpack _). vm_compute. exact I.
Defined.

Lemma created_note_heads_the_listing_witness :
  exists w1 n,
    serve clock_jan_3 (POST_notes body_B) three_notes = (w1, Ok (Created n)) /\
    (serve clock_jan_1 GET_notes three_notes).2 =
      Ok (NoteList (listing (db three_notes))) /\
    (serve clock_jan_1 GET_notes w1).2 =
      Ok (NoteList (n :: listing (db three_notes))).
Proof.
  apply (created_note_heads_the_listing clock_jan_3 clock_jan_1 body_B
           (NoteCreate.Make (py "B") (py "x")) three_notes).
  - apply (bool_decide_unpack _). vm_compute. exact I.
  - vm_compute. reflexivity.
  - vm_compute. reflexivity.
  - apply (bool_decide_unpack _). vm_compute. exact I.
Defined.

Lemma updated_note_heads_the_listing_witness :
  exists w1 n,
    serve clock_jan_3 (PUT_notes_id 1 body_B) three_notes = (w1, Ok (OK n)) /\
    (serve clock_jan_1 GET_notes three_notes).2 =
      Ok (NoteList (listing (db three_notes))) /\
    (serve clock_jan_1 GET_notes w1).2 =
      Ok (NoteList (n :: filter (other_than 1) (listing (db three_notes)))).
Proof.
  apply (updated_note_heads_the_listing clock_jan_3 clock_jan_1 1 body_B
           (NoteUpdate.Make (py "B") (py "x"))
           (Stored (py "A") [] jan_1 jan_1) three_notes).
  - lia.
  - vm_compute. reflexivity.
  - vm_compute. reflexivity.
  - apply (bool_decide_unpack _). vm_compute. exact I.
Defined.

Lemma delete_removes_one_from_listing_witness :
  (serve clock_jan_1 GET_notes three_notes).2 =
    Ok (NoteList (listing (db three_notes))) /\
  (serve clock_jan_1 GET_notes
     (serve clock_jan_3 (DELETE_notes_id 2) three_notes).1).2 =
    Ok (NoteList (filter (other_than 2) (listing (db three_notes)))).
Proof.
  apply (delete_removes_one_from_listing clock_jan_3 clock_jan_1 2 three_notes).
  lia.
Defined.

Lemma created_note_can_be_fetched_witness :
  exists w1 n w2,
    serve clock_jan_3 (POST_notes body_B) three_notes = (w1, Ok (Created n)) /\
    1 <= Note.id n /\
    serve clock_jan_1 (GET_notes_id (Note.id n)) w1 = (w2, Ok (OK n)) /\
    db w2 = db w1.
Proof.
  apply (created_note_can_be_fetched clock_jan_3 clock_jan_1 body_B
           (NoteCreate.Make (py "B") (py "x")) three_notes).
  - vm_compute. discriminate.
  - vm_compute. reflexivity.
  - vm_compute. reflexivity.
Defined.

Lemma updated_note_can_be_fetched_witness :
  exists w1 n w2,
    serve clock_jan_3 (PUT_notes_id 1 body_B) three_notes = (w1, Ok (OK n)) /\
    serve clock_jan_1 (GET_notes_id 1) w1 = (w2, Ok (OK n)) /\
    db w2 = db w1.
Proof.
  apply (updated_note_can_be_fetched clock_jan_3 clock_jan_1 1 body_B
           (NoteUpdate.Make (py "B") (py "x"))
           (Stored (py "A") [] jan_1 jan_1) three_notes).
  - lia.
  - vm_compute. reflexivity.
  - vm_compute. reflexivity.
Defined.

Lemma deleted_note_is_gone_witness :
  exists w2 w3,
    serve clock_jan_3 (DELETE_notes_id 2)
      (serve clock_jan_3 (DELETE_notes_id 2) three_notes).1 =
      (w2, Raise NotFoundError) /\
    db w2 = db (serve clock_jan_3 (DELETE_notes_id 2) three_notes).1 /\
    serve clock_jan_3 (PUT_notes_id 2 body_B)
      (serve clock_jan_3 (DELETE_notes_id 2) three_notes).1 =
      (w3, Raise NotFoundError) /\
    db w3 = db (serve clock_jan_3 (DELETE_notes_id 2) three_notes).1.
Proof.
  apply (deleted_note_is_gone clock_jan_3 clock_jan_3 2 body_B
           (NoteUpdate.Make (py "B") (py "x")) three_notes).
  - lia.
  - vm_compute. reflexivity.
  - vm_compute. reflexivity.
Defined.

Lemma last_update_wins_witness :
  db (serve clock_jan_3 (PUT_notes_id 1 body_B)
        (serve clock_jan_2 (PUT_notes_id 1 body_A) three_notes).1).1 =
    db (serve clock_jan_3 (PUT_notes_id 1 body_B) three_notes).1 /\
  (serve clock_jan_3 (PUT_notes_id 1 body_B)
     (serve clock_jan_2 (PUT_notes_id 1 body_A) three_notes).1).2 =
    (serve clock_jan_3 (PUT_notes_id 1 body_B) three_notes).2.
Proof.
  apply (last_update_wins clock_jan_2 clock_jan_3 1 body_A body_B three_notes).
  exists (NoteUpdate.Make (py "B") (py "x")). vm_compute. reflexivity.
Defined.

Lemma ids_are_consecutive_witness :
  seq (db three_notes) = seq (db fresh) + 3 /\
  exists w2 n,
    serve clock_jan_3 (POST_notes body_B) three_notes = (w2, Ok (Created n)) /\
    Note.id n = seq (db fresh) + 3 + 1.
Proof.
  apply (ids_are_consecutive clock_jan_3 body_B (NoteCreate.Make (py "B") (py "x"))
           [(clock_jan_1, POST_notes body_A);
            (clock_jan_1, POST_notes body_B);
            (clock_jan_2, POST_notes body_A)]
           fresh three_notes
           (run fresh [(clock_jan_1, POST_notes body_A);
                       (clock_jan_1, POST_notes body_B);
                       (clock_jan_2, POST_notes body_A)]).2).
  - apply (bool_decide_unpack _). vm_compute. exact I.
  - vm_compute. reflexivity.
  - vm_compute. reflexivity.
  - vm_compute. reflexivity.
Defined.

Lemma ids_stay_positive_witness :
  ids_from_one (db three_notes) /\
  (forall a n,
     a ∈ (run fresh [(clock_jan_1, POST_notes body_A);
                     (clock_jan_1, POST_notes body_B);
                     (clock_jan_2, POST_notes body_A)]).2 ->
     n ∈ notes_of a -> 1 <= Note.id n).
Proof.
  apply (ids_stay_positive
           [(clock_jan_1, POST_notes body_A);
            (clock_jan_1, POST_notes body_B);
            (clock_jan_2, POST_notes body_A)] fresh).
  - apply (bool_decide_unpack _). vm_compute. exact I.
  - vm_compute. reflexivity.
Defined.

Lemma payload_acceptance_witness :
  (is_Some (NoteCreate.validate body_A) <->
     exists t, body_title body_A = Some t /\ 1 <= len t <= 200 /\
               forallb is_space t = false /\
               len (default [] (body_content body_A)) <= 10000) /\
  (is_Some (NoteCreate.validate body_A) <-> is_Some (NoteUpdate.validate body_A)) /\
  (forall p q,
     NoteCreate.validate body_A = Some p -> NoteUpdate.validate body_A = Some q ->
     NoteUpdate.title q = NoteCreate.title p /\
     NoteUpdate.content q = NoteCreate.content p /\
     NoteCreate.content p = default [] (body_content body_A) /\
     strip <$> body_title body_A = Some (NoteCreate.title p)).
Proof.
  apply (payload_acceptance body_A). vm_compute. reflexivity.
Defined.

Lemma accepted_title_is_trimmed_witness :
  1 <= len (py "A") <= 200 /\
  (forall c, head (py "A") = Some c -> is_space c = false) /\
  (forall c, last (py "A") = Some c -> is_space c = false) /\
  (exists t pre post,
     body_title body_A = Some t /\
     t = pre ++ py "A" ++ post /\
     forallb is_space pre = true /\ forallb is_space post = true) /\
  NoteUpdate.validate (Body (Some (py "A")) (Some [])) =
    Some (NoteUpdate.Make (py "A") []).
Proof.
  apply (accepted_title_is_trimmed body_A (NoteCreate.Make (py "A") [])).
  vm_compute. reflexivity.
Defined.

Lemma timestamps_order_like_time_witness :
  str_compare (_utc_now_iso (Datetime 2024 1 2 23 59 59 999999))
              (_utc_now_iso (Datetime 2024 1 3 0 0 0 0)) =
    datetime_compare (Datetime 2024 1 2 23 59 59 999999) (Datetime 2024 1 3 0 0 0 0) /\
  (_utc_now_iso (Datetime 2024 1 2 23 59 59 999999) =
     _utc_now_iso (Datetime 2024 1 3 0 0 0 0) ->
   Datetime 2024 1 2 23 59 59 999999 = Datetime 2024 1 3 0 0 0 0) /\
  len (_utc_now_iso (Datetime 2024 1 2 23 59 59 999999)) =
    (if (microsecond (Datetime 2024 1 2 23 59 59 999999) =? 0)%N then 25 else 32).
Proof.
  apply (timestamps_order_like_time (Datetime 2024 1 2 23 59 59 999999)
           (Datetime 2024 1 3 0 0 0 0)).
  - apply (bool_decide_unpack _). vm_compute. exact I.
  - apply (bool_decide_unpack _). vm_compute. exact I.
Defined.
